(** * DNS-over-Discord: the worker's interaction protocol

    A shallow embedding of [index.js] (request routing, signature gate,
    command and component dispatch, top-level listener) and of the module
    of the [dig] command (option parsing, deferred acknowledgement,
    supervised background task).

    Every call the worker makes to something outside itself (Sentry, the
    signature verifier, [JSON.parse], the module loader, a handler's
    [execute], [editDeferred], [waitUntil], ...) is recorded as an [Event];
    a computation is the list of events it emits, in order, together with
    the way it completes (a value, or a thrown JavaScript error). *)

From Stdlib Require Import ZArith Ascii String List.
From stdpp Require Import base strings list gmap.

Set Default Proof Using "Type".

(* ===================================================================== *)
(** * JavaScript values, errors and completions *)
(* ===================================================================== *)

(** A thrown value. The worker only ever inspects [err.code]. *)
Record JsError := mkError {
  err_name : string;
  err_message : string;
  err_code : option string;
}.

(** How a call (or an awaited promise) ends: [return v] or [throw e]. *)
Inductive Completion (A : Type) : Type :=
| Normal (a : A)
| Thrown (e : JsError).
Arguments Normal {A} a.
Arguments Thrown {A} e.

(** The scalar values an option of a slash command can carry. *)
Inductive JsValue :=
| JsUndefined
| JsBoolean (b : bool)
| JsNumber (z : Z)
| JsString (s : string).

(** JavaScript truthiness, as used by [||]. *)
Definition truthy (v : JsValue) : bool :=
  match v with
  | JsUndefined => false
  | JsBoolean b => b
  | JsNumber z => negb (z =? 0)%Z
  | JsString s => negb (String.eqb s "")
  end.

(** [a || b] *)
Definition js_or (a b : JsValue) : JsValue := if truthy a then a else b.

(** ** [String.prototype.trim]

    A string stands for the UTF-8 encoding of the script's string, byte by
    byte. [trim] removes, at both ends, the code points of ECMAScript's
    WhiteSpace and LineTerminator productions, listed here with their
    encodings. *)
Definition bytes (s : string) : list ascii := list_ascii_of_string s.

Definition utf8 (codes : list N) : list ascii := map ascii_of_N codes.

Definition white_space : list (list ascii) :=
  [ utf8 [9];                  (* U+0009 character tabulation *)
    utf8 [10];                 (* U+000A line feed *)
    utf8 [11];                 (* U+000B line tabulation *)
    utf8 [12];                 (* U+000C form feed *)
    utf8 [13];                 (* U+000D carriage return *)
    utf8 [32];                 (* U+0020 space *)
    utf8 [194; 160];           (* U+00A0 no-break space *)
    utf8 [225; 154; 128];      (* U+1680 ogham space mark *)
    utf8 [226; 128; 128];      (* U+2000 en quad *)
    utf8 [226; 128; 129];      (* U+2001 em quad *)
    utf8 [226; 128; 130];      (* U+2002 en space *)
    utf8 [226; 128; 131];      (* U+2003 em space *)
    utf8 [226; 128; 132];      (* U+2004 three-per-em space *)
    utf8 [226; 128; 133];      (* U+2005 four-per-em space *)
    utf8 [226; 128; 134];      (* U+2006 six-per-em space *)
    utf8 [226; 128; 135];      (* U+2007 figure space *)
    utf8 [226; 128; 136];      (* U+2008 punctuation space *)
    utf8 [226; 128; 137];      (* U+2009 thin space *)
    utf8 [226; 128; 138];      (* U+200A hair space *)
    utf8 [226; 128; 168];      (* U+2028 line separator *)
    utf8 [226; 128; 169];      (* U+2029 paragraph separator *)
    utf8 [226; 128; 175];      (* U+202F narrow no-break space *)
    utf8 [226; 129; 159];      (* U+205F medium mathematical space *)
    utf8 [227; 128; 128];      (* U+3000 ideographic space *)
    utf8 [239; 187; 191] ]%N.  (* U+FEFF zero width no-break space *)

(** [l] without its prefix [p], if it has that prefix. *)
Fixpoint drop_prefix (p l : list ascii) : option (list ascii) :=
  match p, l with
  | [], _ => Some l
  | a :: p', b :: l' => if Ascii.eqb a b then drop_prefix p' l' else None
  | _ :: _, [] => None
  end.

(** [l] without the one of [ws] it begins with, if it begins with one. *)
Fixpoint drop_space (ws : list (list ascii)) (l : list ascii) : option (list ascii) :=
  match ws with
  | [] => None
  | w :: ws' =>
      match drop_prefix w l with
      | Some rest => Some rest
      | None => drop_space ws' l
      end
  end.

(** Drop leading members of [ws], at most [n] of them. *)
Fixpoint drop_spaces (ws : list (list ascii)) (n : nat) (l : list ascii) : list ascii :=
  match n with
  | O => l
  | S n' =>
      match drop_space ws l with
      | Some rest => drop_spaces ws n' rest
      | None => l
      end
  end.

Definition trimStart_bytes (l : list ascii) : list ascii :=
  drop_spaces white_space (length l) l.

Definition trimEnd_bytes (l : list ascii) : list ascii :=
  reverse (drop_spaces (map reverse white_space) (length l) (reverse l)).

Definition trimStart (s : string) : string :=
  string_of_list_ascii (trimStart_bytes (bytes s)).

Definition trimEnd (s : string) : string :=
  string_of_list_ascii (trimEnd_bytes (bytes s)).

Definition trim (s : string) : string :=
  string_of_list_ascii (trimEnd_bytes (trimStart_bytes (bytes s))).

(** A run of members of [ws], one after the other; of white space. *)
Inductive run_of (ws : list (list ascii)) : list ascii -> Prop :=
| run_nil : run_of ws []
| run_cons (w l : list ascii) : w ∈ ws -> run_of ws l -> run_of ws (w ++ l).

Definition blank : list ascii -> Prop := run_of white_space.

(** The text [(v || '')] holds when it is a string. *)
Definition text_of (v : JsValue) : string :=
  match v with
  | JsString s => s
  | _ => ""
  end.

(** A value [v] with [(v || '').trim()] defined: a string, or anything
    falsy. *)
Definition trimmable (v : JsValue) : Prop :=
  truthy v = false ∨ ∃ s, v = JsString s.

Definition TypeError (msg : string) : JsError :=
  {| err_name := "TypeError"; err_message := msg; err_code := None |}.

(** [v.trim()]: only strings have the method. *)
Definition js_trim (v : JsValue) : Completion string :=
  match v with
  | JsString s => Normal (trim s)
  | _ => Thrown (TypeError "trim is not a function")
  end.

(* ===================================================================== *)
(** * Data model *)
(* ===================================================================== *)

(** discord-api-types/payloads/v9 *)
Module InteractionType.
Definition Ping : Z := 1.
Definition ApplicationCommand : Z := 2.
Definition MessageComponent : Z := 3.
End InteractionType.

Module InteractionResponseType.
Definition Pong : Z := 1.
Definition ChannelMessageWithSource : Z := 4.
Definition DeferredChannelMessageWithSource : Z := 5.
End InteractionResponseType.

Module MessageFlags.
Definition Ephemeral : Z := Z.shiftl 1 6.
End MessageFlags.

(** One entry of [interaction.data.options]. *)
Record CommandOption := {
  opt_name : string;
  opt_value : JsValue;
}.

(** [interaction.data]: [id], [name], [options] for a command, [custom_id]
    for a component. [options] is [None] when the payload has no such
    property. *)
Record InteractionData := {
  data_id : string;
  data_name : string;
  data_custom_id : string;
  data_options : option (list CommandOption);
}.

(** The parsed request body. *)
Record Interaction := {
  body_id : string;
  body_token : string;
  body_type : Z;
  body_data : InteractionData;
}.

Module ComponentType.
Definition ActionRow : Z := 1.
End ComponentType.

(** A component built by one of the component modules (a button, a select
    menu), carried around unread; and a row of them, as the dig command
    writes it: [{ type, components }]. *)
Record Component := { component_json : string }.

Record ComponentRow := {
  row_type : Z;
  row_components : list Component;
}.

(** Embeds are built by [utils/dig.js]; they are carried around unread. *)
Record Embed := { embed_json : string }.

(** The [data] of a response envelope, and the body of an edit. An element
    of [embeds] is [None] where the script puts [undefined]. *)
Record MessageData := {
  content : option string;
  flags : option Z;
  embeds : option (list (option Embed));
  components : option (list ComponentRow);
}.

Record ResponseEnvelope := {
  env_type : Z;
  env_data : option MessageData;
}.

(** What [new Response(body, init)] was given. *)
Inductive ResponseBody :=
| NoBody
| TextBody (text : string)
| JsonBody (obj : ResponseEnvelope).   (* JSON.stringify(obj) *)

Record Response := {
  status : Z;
  headers : list (string * string);
  body : ResponseBody;
}.

(** The inbound request: [request.method], [new URL(request.url).pathname],
    the headers and what [request.text()] resolves to. *)
Record Request := {
  req_method : string;
  req_pathname : string;
  req_headers : list (string * string);
  req_text : string;
}.

(** An entry of [tmp/commands.json]. *)
Record CommandData := {
  cmd_name : string;
  cmd_file : string;
}.

(** An entry of [utils/providers.js]. *)
Record Provider := {
  provider_name : string;
  provider_doh : string;
}.

(** The argument of [handleDig]. [provider] is [None] when the script's
    [provider] is [undefined]. *)
Record DigFlags := {
  short : JsValue;
  cdflag : JsValue;
}.

Record DigOpts := {
  dig_domain : string;
  dig_types : list string;
  dig_options : DigFlags;
  dig_provider : option Provider;
}.

(** A promise handed to [wait] ([event.waitUntil]). The dig command is the
    only code here that schedules one: the async arrow of [execute], which
    by then has called [handleDig opts] and is suspended on its result. *)
Inductive BackgroundTask :=
| DigTask (interaction : Interaction) (opts : DigOpts).

(* ===================================================================== *)
(** * Events and the monad of computations *)
(* ===================================================================== *)

Inductive Event :=
| SentrySetRequestBodyText (text : string)     (* sentry.setRequestBody(bodyText) *)
| SentrySetRequestBody (b : Interaction)       (* sentry.setRequestBody(body) *)
| SentrySetTransactionName (n : string)
| SentrySetTag (key value : string)
| CaptureException (err : JsError)             (* captureException(err, sentry) *)
| ConsoleLog (b : Interaction)
| Verify (request : Request) (text : string)   (* verify(request, bodyText) *)
| JSONParse (text : string)
| LookupCommand (id : string)                  (* commands[body.data.id] *)
| ImportModule (path : string)                 (* import(path) *)
| ExecuteHandler (path : string) (i : Interaction)
| ValidateDomain (raw : string)
| HandleDig (opts : DigOpts)
| EditDeferred (i : Interaction) (payload : MessageData)
| WaitUntil (task : BackgroundTask)
| EventLoopTurn.                               (* a turn spent suspended on a pending promise *)

(** Events emitted, then the completion. *)
Definition M (A : Type) : Type := (list Event * Completion A)%type.

Definition ret {A} (a : A) : M A := ([], Normal a).
Definition throw {A} (e : JsError) : M A := ([], Thrown e).
Definition emit (ev : Event) : M unit := ([ev], Normal tt).
Definition complete {A} (c : Completion A) : M A := ([], c).

Definition bind {A B} (m : M A) (k : A -> M B) : M B :=
  match m with
  | (tr, Normal a) => let '(tr', r) := k a in (tr ++ tr', r)
  | (tr, Thrown e) => (tr, Thrown e)
  end.

(** [try { m } catch (err) { h err }] *)
Definition try_catch {A} (m : M A) (h : JsError -> M A) : M A :=
  match m with
  | (tr, Normal a) => (tr, Normal a)
  | (tr, Thrown e) => let '(tr', r) := h e in (tr ++ tr', r)
  end.

Notation "x <- m ;; k" := (bind m (fun x => k))
  (at level 100, m at next level, right associativity).
Notation "m ;; k" := (bind m (fun _ => k))
  (at level 100, right associativity).

Definition trace {A} (m : M A) : list Event := fst m.
Definition outcome {A} (m : M A) : Completion A := snd m.

(** A promise: the number of event-loop turns it stays pending, and how it
    settles. A call that throws before returning its promise is, inside an
    async function, the same as a promise rejected at once. *)
Record Promise (A : Type) := {
  pending_turns : nat;
  settled : Completion A;
}.
Arguments pending_turns {A} p.
Arguments settled {A} p.

(** [n] turns of the event loop spent suspended. *)
Definition turns (n : nat) : list Event := repeat EventLoopTurn n.

(** [await p] *)
Definition await {A} (p : Promise A) : M A :=
  (turns (pending_turns p), settled p).

(** A handler unit: the default export of a command or component module. Its
    [execute] is given the interaction and the responder (and, through the
    events it may emit, [wait] and [sentry]). *)
Record HandlerUnit := {
  execute : Interaction -> (ResponseEnvelope -> Response) -> M Response;
}.

(* ===================================================================== *)
(** * index.js *)
(* ===================================================================== *)

(** What [index.js] imports or reads from its surroundings and what is not
    part of it: the signature verifier ([utils/verify.js]; it answers with a
    boolean), [JSON.parse], the generated command table
    ([tmp/commands.json], an object used as a map from command id to
    entry), the module loader behind [import()], the two static texts and
    [process.env.CLIENT_ID]. *)
Record Platform := {
  verify : Request -> string -> bool;
  JSON_parse : string -> Completion Interaction;
  commands : gmap string CommandData;
  import_module : string -> Completion HandlerUnit;
  Privacy : string;
  Terms : string;
  CLIENT_ID : string;
}.

(** The calls to the surroundings, each leaving its event. *)
Definition call_verify (P : Platform) (request : Request) (text : string) : M bool :=
  emit (Verify request text);; ret (verify P request text).

Definition call_JSON_parse (P : Platform) (text : string) : M Interaction :=
  emit (JSONParse text);; complete (JSON_parse P text).

(** The property names every plain object answers to through
    [Object.prototype]; the table, read from JSON, is such an object. *)
Definition Object_prototype_properties : list string :=
  ["constructor"; "hasOwnProperty"; "isPrototypeOf"; "propertyIsEnumerable";
   "toLocaleString"; "toString"; "valueOf"; "__proto__";
   "__defineGetter__"; "__defineSetter__"; "__lookupGetter__"; "__lookupSetter__"].

Definition inherited (key : string) : bool :=
  existsb (String.eqb key) Object_prototype_properties.

(** What [commands[id]] evaluates to when it is not [undefined]: an entry
    of the table, or the function or object inherited under that name. *)
Inductive TableValue :=
| OwnEntry (entry : CommandData)
| InheritedValue (key : string).

(** [commands[id]] *)
Definition commands_get (P : Platform) (id : string) : option TableValue :=
  match commands P !! id with
  | Some entry => Some (OwnEntry entry)
  | None => if inherited id then Some (InheritedValue id) else None
  end.

(** [`${commandData.file}`]: the inherited values have no [file]. *)
Definition file_of (commandData : TableValue) : string :=
  match commandData with
  | OwnEntry entry => cmd_file entry
  | InheritedValue _ => "undefined"
  end.

Definition lookup_command (P : Platform) (id : string) : M (option TableValue) :=
  emit (LookupCommand id);; ret (commands_get P id).

Definition import (P : Platform) (path : string) : M HandlerUnit :=
  emit (ImportModule path);; complete (import_module P path).

Definition captureException (err : JsError) : M unit :=
  emit (CaptureException err).

(** Util to send a JSON response *)
Definition jsonResponse (obj : ResponseEnvelope) : Response :=
  {| status := 200;
     headers := [("Content-Type", "application/json")];
     body := JsonBody obj |}.

(** Util to send a perm redirect response *)
Definition redirectResponse (url : string) : Response :=
  {| status := 301;
     headers := [("Location", url)];
     body := NoBody |}.

(** [new Response(null, { status })] *)
Definition statusResponse (st : Z) : Response :=
  {| status := st; headers := []; body := NoBody |}.

(** [new Response(text, { headers })] *)
Definition textResponse (text : string) (hs : list (string * string)) : Response :=
  {| status := 200; headers := hs; body := TextBody text |}.

Definition command_error_message : ResponseEnvelope :=
  {| env_type := InteractionResponseType.ChannelMessageWithSource;
     env_data := Some
       {| content := Some "An unexpected error occurred when executing the command.";
          flags := Some MessageFlags.Ephemeral;
          embeds := None;
          components := None |} |}.

(** Process a Discord command interaction *)
Definition handleCommandInteraction (P : Platform) (body : Interaction) : M Response :=
  emit (SentrySetTransactionName ("command: " +:+ data_name (body_data body)));;
  emit (SentrySetTag "command" (data_name (body_data body)));;
  commandData <- lookup_command P (data_id (body_data body));;
  match commandData with
  | None => ret (statusResponse 404)
  | Some commandData =>
      let path := "./commands/" +:+ file_of commandData in
      try_catch
        (command <- import P path;;
         emit (ExecuteHandler path body);;
         execute command body jsonResponse)
        (fun err =>
           emit (ConsoleLog body);;
           captureException err;;
           ret (jsonResponse command_error_message))
  end.

Definition MODULE_NOT_FOUND : string := "MODULE_NOT_FOUND".

(** [err.code === 'MODULE_NOT_FOUND'] *)
Definition is_module_not_found (err : JsError) : bool :=
  match err_code err with
  | Some c => String.eqb c MODULE_NOT_FOUND
  | None => false
  end.

(** Process a Discord component interaction *)
Definition handleComponentInteraction (P : Platform) (body : Interaction) : M Response :=
  emit (SentrySetTransactionName ("component: " +:+ data_custom_id (body_data body)));;
  emit (SentrySetTag "component" (data_custom_id (body_data body)));;
  let path := "./components/" +:+ data_custom_id (body_data body) +:+ ".js" in
  try_catch
    (component <- import P path;;
     emit (ExecuteHandler path body);;
     execute component body jsonResponse)
    (fun err =>
       if is_module_not_found err then ret (statusResponse 404)
       else
         emit (ConsoleLog body);;
         captureException err;;
         ret (statusResponse 500)).

(** Process a Discord interaction POST request *)
Definition handleInteraction (P : Platform) (request : Request) : M Response :=
  let bodyText := req_text request in
  emit (SentrySetRequestBodyText bodyText);;
  verified <- call_verify P request bodyText;;
  if negb verified then ret (statusResponse 401)
  else
    body <- call_JSON_parse P bodyText;;
    emit (SentrySetRequestBody body);;
    if (body_type body =? InteractionType.Ping)%Z then
      ret (jsonResponse {| env_type := InteractionResponseType.Pong; env_data := None |})
    else if (body_type body =? InteractionType.ApplicationCommand)%Z then
      handleCommandInteraction P body
    else if (body_type body =? InteractionType.MessageComponent)%Z then
      handleComponentInteraction P body
    else
      ret (statusResponse 501).

(** Process all requests to the worker *)
Definition handleRequest (P : Platform) (request : Request) : M Response :=
  if String.eqb (req_method request) "POST" && String.eqb (req_pathname request) "/interactions"
  then handleInteraction P request
  else if negb (String.eqb (req_method request) "GET") then ret (statusResponse 404)
  else if String.eqb (req_pathname request) "/health" then
    ret (textResponse "OK"
           [("Content-Type", "text/plain");
            ("Cache-Control", "no-store, no-cache, must-revalidate, proxy-revalidate");
            ("Expires", "0");
            ("Surrogate-Control", "no-store")])
  else if String.eqb (req_pathname request) "/privacy" then
    ret (textResponse (Privacy P) [("Content-Type", "text/plain")])
  else if String.eqb (req_pathname request) "/terms" then
    ret (textResponse (Terms P) [("Content-Type", "text/plain")])
  else if String.eqb (req_pathname request) "/invite" then
    ret (redirectResponse
           ("https://discord.com/oauth2/authorize?client_id=" +:+ CLIENT_ID P
              +:+ "&scope=applications.commands"))
  else if String.eqb (req_pathname request) "/server" then
    ret (redirectResponse "https://discord.gg/JgxVfGn")
  else if String.eqb (req_pathname request) "/github" then
    ret (redirectResponse "https://github.com/MattIPv4/DNS-over-Discord")
  else if String.eqb (req_pathname request) "/" then
    ret (redirectResponse
           "https://developers.cloudflare.com/1.1.1.1/other-ways-to-use-1.1.1.1/dns-over-discord")
  else ret (statusResponse 404).

(** The worker listener: what [event.respondWith] is given. A [Thrown]
    completion is the rejection the hosting runtime sees. *)
Definition fetchListener (P : Platform) (request : Request) : M Response :=
  try_catch (handleRequest P request)
    (fun err =>
       captureException err;;
       throw err).

(* ===================================================================== *)
(** * The [dig] command module *)
(* ===================================================================== *)

Module Dig.

(** The result of [validateDomain]: [{ domain, error }]. *)
Record Validation := {
  domain : string;
  error : option Response;
}.

(** What the command imports: the record types ([utils/dns.js]), the
    providers ([utils/providers.js]), the domain check and the lookup
    ([utils/dig.js]), the edit of the deferred response
    ([utils/discord.js]) and the two component modules. [handleDig] and
    [editDeferred] answer with promises. *)
Record Env := {
  VALID_TYPES : list string;
  providers : list Provider;
  validateDomain : string -> (ResponseEnvelope -> Response) -> Validation;
  handleDig : DigOpts -> Promise (list Embed);
  editDeferred : Interaction -> MessageData -> Promise unit;
  digProvider_component : string -> Component;
  digRefresh_component : Component;
}.

Definition name : string := "dig".

(** Discord has a limit of 25 options *)
Definition optionTypes (E : Env) : list string := take 25 (VALID_TYPES E).

(** A choice of an option: [{ name, value }]. *)
Record Choice := {
  choice_name : string;
  choice_value : string;
}.

(** The choices of the [type] option:
    [optionTypes.map(type => ({ name: `${type} records`, value: type }))] *)
Definition type_choices (E : Env) : list Choice :=
  map (fun type => {| choice_name := type +:+ " records"; choice_value := type |})
    (optionTypes E).

(** The choices of the [provider] option:
    [providers.map(({ name }) => ({ name, value: name }))] *)
Definition provider_choices (E : Env) : list Choice :=
  map (fun p => {| choice_name := provider_name p; choice_value := provider_name p |})
    (providers E).

(** [(options.find(opt => opt.name === n) || {}).value] *)
Definition find_value (options : list CommandOption) (n : string) : JsValue :=
  match find (fun opt => String.eqb (opt_name opt) n) options with
  | Some opt => opt_value opt
  | None => JsUndefined
  end.

(** The same on [interaction.data.options], which may be [undefined]. *)
Definition option_value (interaction : Interaction) (n : string) : Completion JsValue :=
  match data_options (body_data interaction) with
  | None => Thrown (TypeError "Cannot read properties of undefined (reading 'find')")
  | Some options => Normal (find_value options n)
  end.

(** [((...).value || '').trim()] *)
Definition raw_string (interaction : Interaction) (n : string) : M string :=
  v <- complete (option_value interaction n);;
  complete (js_trim (js_or v (JsString ""))).

(** [(...).value || false] *)
Definition raw_flag (interaction : Interaction) (n : string) : M JsValue :=
  v <- complete (option_value interaction n);;
  ret (js_or v (JsBoolean false)).

Definition call_validateDomain (E : Env) (raw : string)
    (response : ResponseEnvelope -> Response) : M Validation :=
  emit (ValidateDomain raw);; ret (validateDomain E raw response).

Definition call_handleDig (E : Env) (opts : DigOpts) : M (Promise (list Embed)) :=
  emit (HandleDig opts);; ret (handleDig E opts).

Definition call_editDeferred (E : Env) (interaction : Interaction)
    (payload : MessageData) : M (Promise unit) :=
  emit (EditDeferred interaction payload);; ret (editDeferred E interaction payload).

(** Validate type, fallback to 'A' *)
Definition select_type (E : Env) (rawType : string) : string :=
  if existsb (String.eqb rawType) (VALID_TYPES E) then rawType else "A".

(** Validate provider, fallback to Cloudflare *)
Definition select_provider (E : Env) (rawProvider : string) : option Provider :=
  match find (fun p => String.eqb (provider_name p) rawProvider) (providers E) with
  | Some p => Some p
  | None => head (providers E)
  end.

Definition deferred_ack : ResponseEnvelope :=
  {| env_type := InteractionResponseType.DeferredChannelMessageWithSource;
     env_data := None |}.

(** [const opts = { domain, types: [ type ], options: { short, cdflag }, provider }] *)
Definition make_opts (domain type : string) (rawShort rawCdflag : JsValue)
    (provider : option Provider) : DigOpts :=
  {| dig_domain := domain;
     dig_types := [type];
     dig_options := {| short := rawShort; cdflag := rawCdflag |};
     dig_provider := provider |}.

(** [execute]: everything it does before it returns. The async arrow is
    entered at once and runs up to its first [await], so [handleDig] has
    been called when the promise is handed to [wait]; what follows that
    [await] is [digTask] below. *)
Definition execute (E : Env) (interaction : Interaction)
    (response : ResponseEnvelope -> Response) : M Response :=
  rawDomain <- raw_string interaction "domain";;
  rawType <- raw_string interaction "type";;
  rawShort <- raw_flag interaction "short";;
  rawCdflag <- raw_flag interaction "cdflag";;
  rawProvider <- raw_string interaction "provider";;
  v <- call_validateDomain E rawDomain response;;
  match error v with
  | Some err => ret err
  | None =>
      let type := select_type E rawType in
      let provider := select_provider E rawProvider in
      let opts := make_opts (domain v) type rawShort rawCdflag provider in
      call_handleDig E opts;;
      emit (WaitUntil (DigTask interaction opts));;
      ret (response deferred_ack)
  end.

Definition failure_text : string :=
  "Sorry, something went wrong when processing your DNS query".

Definition failure_message : MessageData :=
  {| content := Some failure_text;
     flags := None;
     embeds := None;
     components := None |}.

Definition result_message (E : Env) (embed : option Embed) (providerName : string)
    : MessageData :=
  {| content := None;
     flags := None;
     embeds := Some [embed];
     components := Some
       [ {| row_type := ComponentType.ActionRow;
            row_components := [digProvider_component E providerName] |};
         {| row_type := ComponentType.ActionRow;
            row_components := [digRefresh_component E] |} ] |}.

(** [provider.name] *)
Definition provider_name_of (p : option Provider) : Completion string :=
  match p with
  | Some p => Normal (provider_name p)
  | None => Thrown (TypeError "Cannot read properties of undefined (reading 'name')")
  end.

(** The async arrow from its first [await] on: the lookup settles, the
    original deferred response is edited. *)
Definition digWork (E : Env) (interaction : Interaction) (opts : DigOpts) : M unit :=
  embeds <- await (handleDig E opts);;
  let embed := head embeds in
  providerName <- complete (provider_name_of (dig_provider opts));;
  edit <- call_editDeferred E interaction (result_message E embed providerName);;
  await edit.

(** The [.catch] callback of the task. The promise of the second
    [editDeferred] is neither awaited nor returned, and its rejection is
    dropped by [.catch(() => {})]. *)
Definition digFailed (E : Env) (interaction : Interaction) (err : JsError) : M unit :=
  captureException err;;
  call_editDeferred E interaction failure_message;;
  throw err.

(** The promise handed to [wait], from the moment it resumes. [Thrown]
    is its rejection, which [waitUntil] passes on to the runtime. *)
Definition digTask (E : Env) (interaction : Interaction) (opts : DigOpts) : M unit :=
  try_catch (digWork E interaction opts) (digFailed E interaction).

(** The default export, as [index.js] sees it. *)
Definition command (E : Env) : HandlerUnit :=
  Build_HandlerUnit (execute E).

End Dig.

(* ===================================================================== *)
(** * The runtime's side of [waitUntil] *)
(* ===================================================================== *)

(** The promises handed to [waitUntil] during a run. *)
Definition scheduled (tr : list Event) : list BackgroundTask :=
  omap (fun ev => match ev with WaitUntil t => Some t | _ => None end) tr.

Definition resume (E : Dig.Env) (t : BackgroundTask) : M unit :=
  match t with
  | DigTask interaction opts => Dig.digTask E interaction opts
  end.

(** A job runs to completion before the next one starts, and a suspended
    async function resumes as a later job: everything a synchronous run
    emits comes first, the continuations of the promises it scheduled come
    after. *)
Definition timeline {A} (E : Dig.Env) (m : M A) : list Event :=
  trace m ++ concat (map (fun t => trace (resume E t)) (scheduled (trace m))).

(** ** Reading traces *)

Definition reports (tr : list Event) : list JsError :=
  omap (fun ev => match ev with CaptureException e => Some e | _ => None end) tr.

Definition edits (tr : list Event) : list (Interaction * MessageData) :=
  omap (fun ev => match ev with EditDeferred i p => Some (i, p) | _ => None end) tr.

(** An edit whose content is the fixed failure message. *)
Definition is_fallback_edit (ev : Event) : bool :=
  match ev with
  | EditDeferred _ payload =>
      match content payload with
      | Some text => String.eqb text Dig.failure_text
      | None => false
      end
  | _ => false
  end.

(** A module is loaded or a handler's [execute] is called. *)
Definition is_handler_run (ev : Event) : bool :=
  match ev with
  | ImportModule _ | ExecuteHandler _ _ => true
  | _ => false
  end.

(** The command table is read, or a handler is loaded or run. *)
Definition is_handler_use (ev : Event) : bool :=
  match ev with
  | LookupCommand _ => true
  | _ => is_handler_run ev
  end.

(** Anything past the signature gate: parsing, lookup, loading, running. *)
Definition is_dispatch (ev : Event) : bool :=
  match ev with
  | JSONParse _ | SentrySetRequestBody _ => true
  | _ => is_handler_use ev
  end.

(** What a request to [/interactions] leaves behind before the router
    takes over. *)
Definition gate (request : Request) : list Event :=
  [SentrySetRequestBodyText (req_text request); Verify request (req_text request)].

Definition admitted_body (request : Request) (body : Interaction) : list Event :=
  gate request ++ [JSONParse (req_text request); SentrySetRequestBody body].

(** The Sentry scope and table lookup that open the command path; the
    module a component interaction names; the scope and load that open the
    component path. *)
Definition command_scope (body : Interaction) : list Event :=
  [SentrySetTransactionName ("command: " +:+ data_name (body_data body));
   SentrySetTag "command" (data_name (body_data body));
   LookupCommand (data_id (body_data body))].

Definition command_path (commandData : CommandData) : string :=
  "./commands/" +:+ cmd_file commandData.

Definition component_path (body : Interaction) : string :=
  "./components/" +:+ data_custom_id (body_data body) +:+ ".js".

Definition component_scope (body : Interaction) : list Event :=
  [SentrySetTransactionName ("component: " +:+ data_custom_id (body_data body));
   SentrySetTag "component" (data_custom_id (body_data body));
   ImportModule (component_path body)].

(** What the router adds once an [execute] has thrown. *)
Definition logged (body : Interaction) (err : JsError) : list Event :=
  [ConsoleLog body; CaptureException err].

(* ===================================================================== *)
(** * A concrete worker, to run the definitions on *)
(* ===================================================================== *)

Module Demo.

Definition signed (request : Request) (text : string) : bool :=
  existsb (fun h => String.eqb (fst h) "X-Signature-Ed25519" && String.eqb (snd h) "good")
    (req_headers request).

Definition post (sig text : string) : Request :=
  {| req_method := "POST";
     req_pathname := "/interactions";
     req_headers := [("X-Signature-Ed25519", sig); ("X-Signature-Timestamp", "1700000000")];
     req_text := text |}.

Definition interaction (type : Z) (id name custom_id : string)
    (options : option (list CommandOption)) : Interaction :=
  {| body_id := "900"; body_token := "token-900"; body_type := type;
     body_data := {| data_id := id; data_name := name;
                     data_custom_id := custom_id; data_options := options |} |}.

Definition ping : Interaction := interaction 1 "" "" "" None.

Definition dig_options : list CommandOption :=
  [ {| opt_name := "domain"; opt_value := JsString " example.com " |};
    {| opt_name := "type"; opt_value := JsString "BOGUS" |};
    {| opt_name := "short"; opt_value := JsBoolean true |};
    {| opt_name := "provider"; opt_value := JsString "nobody" |} ].

Definition dig : Interaction := interaction 2 "100" "dig" "" (Some dig_options).

Definition dig_down : Interaction :=
  interaction 2 "100" "dig"  ""
    (Some [ {| opt_name := "domain"; opt_value := JsString "down.example" |} ]).

Definition broken : Interaction := interaction 2 "200" "broken" "" (Some []).
Definition unregistered : Interaction := interaction 2 "999" "gone" "" (Some []).
Definition stale_click : Interaction := interaction 3 "" "" "stale-id" None.
Definition refresh_click : Interaction := interaction 3 "" "" "dig-refresh" None.
Definition nested_click : Interaction := interaction 3 "" "" "nested" None.

(** A stand-in for [JSON.parse] that knows a few bodies by name. *)
Definition parse (text : string) : Completion Interaction :=
  if String.eqb text "ping" then Normal ping
  else if String.eqb text "dig" then Normal dig
  else if String.eqb text "dig down" then Normal dig_down
  else if String.eqb text "broken" then Normal broken
  else if String.eqb text "unregistered" then Normal unregistered
  else if String.eqb text "stale click" then Normal stale_click
  else if String.eqb text "refresh click" then Normal refresh_click
  else if String.eqb text "nested click" then Normal nested_click
  else Thrown {| err_name := "SyntaxError";
                 err_message := "Unexpected token in JSON";
                 err_code := None |}.

Definition boom : JsError :=
  {| err_name := "Error"; err_message := "boom"; err_code := None |}.

Definition not_found (what : string) : JsError :=
  {| err_name := "Error";
     err_message := "Cannot find module " +:+ what;
     err_code := Some MODULE_NOT_FOUND |}.

Definition cloudflare : Provider :=
  {| provider_name := "1.1.1.1 (Cloudflare)";
     provider_doh := "https://cloudflare-dns.com/dns-query" |}.
Definition google : Provider :=
  {| provider_name := "8.8.8.8 (Google)";
     provider_doh := "https://dns.google/resolve" |}.

Definition digEnv : Dig.Env :=
  {| Dig.VALID_TYPES := ["A"; "AAAA"; "CNAME"; "MX"; "TXT"];
     Dig.providers := [cloudflare; google];
     Dig.validateDomain := fun raw response =>
       if String.eqb raw ""
       then {| Dig.domain := "";
               Dig.error := Some (response
                 {| env_type := InteractionResponseType.ChannelMessageWithSource;
                    env_data := Some {| content := Some "A domain name must be set.";
                                        flags := Some MessageFlags.Ephemeral;
                                        embeds := None; components := None |} |}) |}
       else {| Dig.domain := raw; Dig.error := None |};
     Dig.handleDig := fun opts =>
       if String.eqb (dig_domain opts) "down.example"
       then {| pending_turns := 3; settled := Thrown boom |}
       else {| pending_turns := 2; settled := Normal [ {| embed_json := "{}" |} ] |};
     Dig.editDeferred := fun _ payload =>
       match content payload with
       | Some _ => {| pending_turns := 1; settled := Thrown (not_found "fetch") |}
       | None => {| pending_turns := 1; settled := Normal tt |}
       end;
     Dig.digProvider_component := fun n => {| component_json := "provider:" +:+ n |};
     Dig.digRefresh_component := {| component_json := "refresh" |} |}.

(** Handler units that throw from [execute]. *)
Definition throwing (err : JsError) : HandlerUnit :=
  {| execute := fun _ _ => ([SentrySetTag "stage" "execute"], Thrown err) |}.

Definition load (path : string) : Completion HandlerUnit :=
  if String.eqb path "./commands/dig.js" then Normal (Dig.command digEnv)
  else if String.eqb path "./commands/broken.js" then Normal (throwing boom)
  else if String.eqb path "./components/dig-refresh.js" then Normal (throwing boom)
  else if String.eqb path "./components/nested.js" then Normal (throwing (not_found "./lib.js"))
  else Thrown (not_found path).

Definition platform : Platform :=
  {| verify := signed;
     JSON_parse := parse;
     commands := {[ "100" := {| cmd_name := "dig"; cmd_file := "dig.js" |};
                    "200" := {| cmd_name := "broken"; cmd_file := "broken.js" |} ]};
     import_module := load;
     Privacy := "privacy notice";
     Terms := "terms notice";
     CLIENT_ID := "123" |}.

(** The same worker before any command was registered. *)
Definition bare : Platform :=
  {| verify := signed;
     JSON_parse := parse;
     commands := ∅;
     import_module := fun path => Thrown (not_found path);
     Privacy := "";
     Terms := "";
     CLIENT_ID := "" |}.

End Demo.

(** Interactions at the edge of what the table and the option reads
    expect, and a worker that parses every body to a given one. *)
Module Probe.

Definition answering (body : Interaction) : Platform :=
  {| verify := Demo.signed;
     JSON_parse := fun _ => Normal body;
     commands := commands Demo.platform;
     import_module := Demo.load;
     Privacy := "";
     Terms := "";
     CLIENT_ID := "" |}.


(** A dig command whose [type] option holds a number. *)
Definition numeric_type : Interaction :=
  Demo.interaction 2 "100" "dig" ""
    (Some [ {| opt_name := "domain"; opt_value := JsString "example.com" |};
            {| opt_name := "type"; opt_value := JsNumber 28 |} ]).

End Probe.

(* ===================================================================== *)
(** * Running the worker on the concrete one *)
(* ===================================================================== *)

Example health_check :
  fetchListener Demo.platform
    {| req_method := "GET"; req_pathname := "/health"; req_headers := []; req_text := "" |}
  = ([], Normal (textResponse "OK"
        [("Content-Type", "text/plain");
         ("Cache-Control", "no-store, no-cache, must-revalidate, proxy-revalidate");
         ("Expires", "0");
         ("Surrogate-Control", "no-store")])).
Proof. reflexivity. Qed.

Example unsigned_post :
  fetchListener Demo.platform (Demo.post "" "ping")
  = ([SentrySetRequestBodyText "ping"; Verify (Demo.post "" "ping") "ping"],
     Normal (statusResponse 401)).
Proof. reflexivity. Qed.

Example dig_deferred :
  outcome (fetchListener Demo.platform (Demo.post "good" "dig"))
  = Normal (jsonResponse Dig.deferred_ack).
Proof. vm_compute. reflexivity. Qed.

(* ===================================================================== *)
(** * Laws of the monad *)
(* ===================================================================== *)

Section Laws.
Context {A B : Type}.

Lemma bind_emit (ev : Event) (k : M B) :
  (emit ev;; k) = (ev :: trace k, outcome k).
Proof. by destruct k. Qed.

Lemma bind_ret (a : A) (k : A -> M B) : (x <- ret a;; k x) = k a.
Proof. unfold bind, ret. by destruct (k a). Qed.


Lemma bind_thrown (tr : list Event) (e : JsError) (k : A -> M B) :
  bind (tr, Thrown e) k = (tr, Thrown e).
Proof. done. Qed.

Lemma try_catch_normal (tr : list Event) (a : A) (h : JsError -> M A) :
  try_catch (tr, Normal a) h = (tr, Normal a).
Proof. done. Qed.

Lemma try_catch_thrown (tr : list Event) (e : JsError) (h : JsError -> M A) :
  try_catch (tr, Thrown e) h = (tr ++ trace (h e), outcome (h e)).
Proof. unfold try_catch. by destruct (h e). Qed.

(** A handler only ever adds to what the guarded block emitted. *)
Lemma try_catch_trace (m : M A) (h : JsError -> M A) :
  ∃ more, trace (try_catch m h) = trace m ++ more.
Proof.
  destruct m as [tr [a|e]].
  - exists []. by rewrite try_catch_normal, app_nil_r.
  - exists (trace (h e)). by rewrite try_catch_thrown.
Qed.

Lemma surjective_run (m : M A) : m = (trace m, outcome m).
Proof. by destruct m. Qed.

(** What a guarded block emitted stays in front, whatever it threw. *)
Lemma try_catch_trace_prefix (tr : list Event) (r : Completion A) (h : JsError -> M A) :
  trace (try_catch (tr, r) h) =
    tr ++ match r with Normal _ => [] | Thrown e => trace (h e) end.
Proof.
  destruct r as [a|e].
  - by rewrite try_catch_normal, app_nil_r.
  - by rewrite try_catch_thrown.
Qed.
End Laws.

(** Run the monad's plumbing, leaving strings and calls alone. *)
Ltac run :=
  cbn [bind emit ret throw complete try_catch captureException app trace outcome fst snd].

Lemma reports_app (tr tr' : list Event) : reports (tr ++ tr') = reports tr ++ reports tr'.
Proof. apply omap_app. Qed.

Lemma edits_app (tr tr' : list Event) : edits (tr ++ tr') = edits tr ++ edits tr'.
Proof. apply omap_app. Qed.

(* ===================================================================== *)
(** * The signature gate and the router *)
(* ===================================================================== *)

Section Router.
Variable P : Platform.
Variable request : Request.
Hypothesis is_post : req_method request = "POST".
Hypothesis is_interactions : req_pathname request = "/interactions".

Lemma handleRequest_interactions : handleRequest P request = handleInteraction P request.
Proof using is_post is_interactions.
  unfold handleRequest. by rewrite is_post, is_interactions.
Qed.

Lemma handleInteraction_starts :
  ∃ rest, trace (handleInteraction P request) = gate request ++ rest.
Proof.
  unfold handleInteraction, call_verify.
  rewrite bind_emit. cbn [trace fst].
  match goal with |- context [bind (emit ?e;; ?k) ?f] =>
    replace (bind (emit e;; k) f) with (emit e;; f (verify P request (req_text request)))
  end.
  2:{ unfold bind, emit, ret. cbn.
      by destruct (if negb _ then _ else _). }
  rewrite bind_emit. cbn [trace fst]. by eexists.
Qed.

Lemma handleInteraction_rejected :
  verify P request (req_text request) = false →
  handleInteraction P request = (gate request, Normal (statusResponse 401)).
Proof.
  intros Hv. unfold handleInteraction, call_verify, bind, emit, ret. cbn.
  by rewrite Hv.
Qed.

(** Once the signature verified and the body parsed, the switch on
    [body.type] is all that is left. *)
Lemma handleInteraction_admitted (body : Interaction) :
  verify P request (req_text request) = true →
  JSON_parse P (req_text request) = Normal body →
  handleInteraction P request =
    bind (admitted_body request body, Normal tt) (fun _ =>
      if (body_type body =? InteractionType.Ping)%Z then
        ret (jsonResponse {| env_type := InteractionResponseType.Pong; env_data := None |})
      else if (body_type body =? InteractionType.ApplicationCommand)%Z then
        handleCommandInteraction P body
      else if (body_type body =? InteractionType.MessageComponent)%Z then
        handleComponentInteraction P body
      else ret (statusResponse 501)).
Proof.
  intros Hv Hp.
  unfold handleInteraction, call_verify, call_JSON_parse, complete, bind, emit, ret.
  cbn. rewrite Hv, Hp. cbn.
  by destruct (if (body_type body =? _)%Z then _ else _).
Qed.

Lemma handleInteraction_unparsed (err : JsError) :
  verify P request (req_text request) = true →
  JSON_parse P (req_text request) = Thrown err →
  handleInteraction P request =
    (gate request ++ [JSONParse (req_text request)], Thrown err).
Proof.
  intros Hv Hp.
  unfold handleInteraction, call_verify, call_JSON_parse, complete, bind, emit, ret.
  cbn. by rewrite Hv, Hp.
Qed.
End Router.

Section Listener.
Variable P : Platform.
Variable request : Request.

(** The listener passes a response through untouched ... *)
Lemma fetchListener_normal (tr : list Event) (resp : Response) :
  handleRequest P request = (tr, Normal resp) →
  fetchListener P request = (tr, Normal resp).
Proof. intros H. unfold fetchListener. by rewrite H. Qed.

(** ... and reports, then re-throws, whatever escapes the request path. *)
Lemma fetchListener_thrown (tr : list Event) (err : JsError) :
  handleRequest P request = (tr, Thrown err) →
  fetchListener P request = (tr ++ [CaptureException err], Thrown err).
Proof. intros H. unfold fetchListener. by rewrite H. Qed.

Hypothesis is_post : req_method request = "POST".
Hypothesis is_interactions : req_pathname request = "/interactions".

Lemma listener_starts_with_gate :
  ∃ rest, trace (fetchListener P request) = gate request ++ rest.
Proof using is_post is_interactions.
  destruct (try_catch_trace (handleRequest P request)
              (fun err => captureException err;; throw err)) as [more Hmore].
  destruct (handleInteraction_starts P request) as [rest Hrest].
  exists (rest ++ more). unfold fetchListener. rewrite Hmore.
  rewrite handleRequest_interactions by done.
  by rewrite Hrest, <- app_assoc.
Qed.

Variable body : Interaction.
Hypothesis verified : verify P request (req_text request) = true.
Hypothesis parsed : JSON_parse P (req_text request) = Normal body.

(** A verified, parsed interaction answered by [m], one of the arms of the
    switch. *)
Lemma listener_routed (m : M Response) (tr : list Event) (resp : Response) :
  handleInteraction P request = bind (admitted_body request body, Normal tt) (fun _ => m) →
  m = (tr, Normal resp) →
  fetchListener P request = (admitted_body request body ++ tr, Normal resp).
Proof using is_post is_interactions.
  intros Hroute ->. apply fetchListener_normal.
  rewrite handleRequest_interactions by done. by rewrite Hroute.
Qed.

Lemma routed_ping :
  body_type body = InteractionType.Ping →
  handleInteraction P request =
    bind (admitted_body request body, Normal tt) (fun _ =>
      ret (jsonResponse {| env_type := InteractionResponseType.Pong; env_data := None |})).
Proof using verified parsed.
  intros Ht. rewrite (handleInteraction_admitted P request body) by done.
  by rewrite Ht.
Qed.

Lemma routed_command :
  body_type body = InteractionType.ApplicationCommand →
  handleInteraction P request =
    bind (admitted_body request body, Normal tt) (fun _ => handleCommandInteraction P body).
Proof using verified parsed.
  intros Ht. rewrite (handleInteraction_admitted P request body) by done.
  by rewrite Ht.
Qed.

Lemma routed_component :
  body_type body = InteractionType.MessageComponent →
  handleInteraction P request =
    bind (admitted_body request body, Normal tt) (fun _ => handleComponentInteraction P body).
Proof using verified parsed.
  intros Ht. rewrite (handleInteraction_admitted P request body) by done.
  by rewrite Ht.
Qed.
End Listener.

Lemma code_is_module_not_found (err : JsError) :
  err_code err = Some "MODULE_NOT_FOUND" → is_module_not_found err = true.
Proof. unfold is_module_not_found. by intros ->. Qed.

Lemma other_code_is_not (err : JsError) :
  err_code err ≠ Some "MODULE_NOT_FOUND" → is_module_not_found err = false.
Proof.
  unfold is_module_not_found. destruct (err_code err) as [c|]; [|done].
  intros Hne. destruct (String.eqb_spec c MODULE_NOT_FOUND) as [->|]; [|done].
  by destruct Hne.
Qed.


Section Handlers.
Variable P : Platform.
Variable body : Interaction.

Lemma commands_get_entry (commandData : CommandData) :
  commands P !! data_id (body_data body) = Some commandData →
  commands_get P (data_id (body_data body)) = Some (OwnEntry commandData).
Proof. intros Hsome. unfold commands_get. by rewrite Hsome. Qed.


(** An id that names an inherited property is taken for an entry without
    a [file]. *)
Lemma command_inherited (err : JsError) :
  commands P !! data_id (body_data body) = None →
  inherited (data_id (body_data body)) = true →
  import_module P "./commands/undefined" = Thrown err →
  handleCommandInteraction P body =
    (command_scope body ++ [ImportModule "./commands/undefined"] ++ logged body err,
     Normal (jsonResponse command_error_message)).
Proof.
  intros Hnone Hinherited Himport.
  unfold handleCommandInteraction, lookup_command, import, command_scope, commands_get.
  run. rewrite Hnone, Hinherited. cbn [file_of].
  change ("./commands/" +:+ "undefined") with "./commands/undefined".
  run. rewrite Himport. reflexivity.
Qed.

Lemma command_failed (commandData : CommandData) (command : HandlerUnit)
    (tr : list Event) (err : JsError) :
  commands P !! data_id (body_data body) = Some commandData →
  import_module P (command_path commandData) = Normal command →
  execute command body jsonResponse = (tr, Thrown err) →
  handleCommandInteraction P body =
    (command_scope body ++
       [ImportModule (command_path commandData);
        ExecuteHandler (command_path commandData) body] ++ tr ++ logged body err,
     Normal (jsonResponse command_error_message)).
Proof.
  intros Hsome Himport Hexec.
  unfold handleCommandInteraction, lookup_command, import, command_scope.
  run. rewrite (commands_get_entry commandData Hsome). cbn [file_of].
  fold (command_path commandData).
  run. rewrite Himport. run. rewrite Hexec. reflexivity.
Qed.

Lemma command_answered (commandData : CommandData) (command : HandlerUnit)
    (tr : list Event) (resp : Response) :
  commands P !! data_id (body_data body) = Some commandData →
  import_module P (command_path commandData) = Normal command →
  execute command body jsonResponse = (tr, Normal resp) →
  handleCommandInteraction P body =
    (command_scope body ++
       [ImportModule (command_path commandData);
        ExecuteHandler (command_path commandData) body] ++ tr,
     Normal resp).
Proof.
  intros Hsome Himport Hexec.
  unfold handleCommandInteraction, lookup_command, import, command_scope.
  run. rewrite (commands_get_entry commandData Hsome). cbn [file_of].
  fold (command_path commandData).
  run. rewrite Himport. run. rewrite Hexec. reflexivity.
Qed.

Lemma component_missing (err : JsError) :
  import_module P (component_path body) = Thrown err →
  handleComponentInteraction P body =
    (component_scope body ++ (if is_module_not_found err then [] else logged body err),
     Normal (statusResponse (if is_module_not_found err then 404 else 500))).
Proof.
  intros Himport.
  unfold handleComponentInteraction, import, component_scope.
  fold (component_path body). run. rewrite Himport. run.
  by destruct (is_module_not_found err).
Qed.

Lemma component_failed (component : HandlerUnit) (tr : list Event) (err : JsError) :
  import_module P (component_path body) = Normal component →
  execute component body jsonResponse = (tr, Thrown err) →
  handleComponentInteraction P body =
    (component_scope body ++ [ExecuteHandler (component_path body) body] ++ tr ++
       (if is_module_not_found err then [] else logged body err),
     Normal (statusResponse (if is_module_not_found err then 404 else 500))).
Proof.
  intros Himport Hexec.
  unfold handleComponentInteraction, import, component_scope.
  fold (component_path body). run. rewrite Himport. run. rewrite Hexec. run.
  by destruct (is_module_not_found err).
Qed.
End Handlers.

(* ===================================================================== *)
(** * The claims about [index.js] *)
(* ===================================================================== *)

(** C1. For every POST request to [/interactions], [verify] is called on
    the body text exactly as [request.text()] gave it, before anything is
    parsed (the call is the second event of the run, and no [JSON.parse]
    comes before it); and when it does not answer [true] the response is
    401 with no body, and nothing past the gate (parsing, table lookup,
    module load, handler) is reached. *)
Theorem signature_gate (P : Platform) (request : Request) :
  req_method request = "POST" →
  req_pathname request = "/interactions" →
  take 2 (trace (fetchListener P request)) =
    [SentrySetRequestBodyText (req_text request); Verify request (req_text request)]
  ∧ (∀ k text, trace (fetchListener P request) !! k = Some (JSONParse text) → 1 < k)
  ∧ (verify P request (req_text request) = false →
       ∃ resp,
         fetchListener P request = (gate request, Normal resp)
         ∧ status resp = 401%Z
         ∧ body resp = NoBody
         ∧ Forall (fun ev => is_dispatch ev = false) (trace (fetchListener P request))).
Proof.
  intros Hpost Hpath.
  destruct (listener_starts_with_gate P request Hpost Hpath) as [rest Hrest].
  split; [by rewrite Hrest|]. split.
  - intros k text. rewrite Hrest. destruct k as [|[|k]]; cbn; [done|done|lia].
  - intros Hbad. exists (statusResponse 401).
    assert (fetchListener P request = (gate request, Normal (statusResponse 401))) as Hrun.
    { apply fetchListener_normal. rewrite handleRequest_interactions by done.
      by apply handleInteraction_rejected. }
    rewrite Hrun. repeat split. by repeat constructor.
Qed.

Lemma signature_gate_witness :
  verify Demo.platform (Demo.post "forged" "ping") "ping" = false
  ∧ ∃ resp,
      fetchListener Demo.platform (Demo.post "forged" "ping")
        = (gate (Demo.post "forged" "ping"), Normal resp)
      ∧ status resp = 401%Z
      ∧ body resp = NoBody
      ∧ Forall (fun ev => is_dispatch ev = false)
          (trace (fetchListener Demo.platform (Demo.post "forged" "ping"))).
Proof.
  split; [reflexivity|].
  apply (signature_gate Demo.platform (Demo.post "forged" "ping")); reflexivity.
Defined.

(** C7. A verified Ping is answered 200 with the JSON envelope of type
    Pong; the run reads no command table, loads no module and calls no
    handler, whatever the table and the loader are (empty ones included). *)
Theorem ping_pong (P : Platform) (request : Request) (ping : Interaction) :
  req_method request = "POST" →
  req_pathname request = "/interactions" →
  verify P request (req_text request) = true →
  JSON_parse P (req_text request) = Normal ping →
  body_type ping = InteractionType.Ping →
  fetchListener P request =
    (admitted_body request ping,
     Normal {| status := 200;
               headers := [("Content-Type", "application/json")];
               body := JsonBody {| env_type := InteractionResponseType.Pong;
                                   env_data := None |} |})
  ∧ Forall (fun ev => is_handler_use ev = false) (trace (fetchListener P request)).
Proof.
  intros Hpost Hpath Hv Hparse Htype.
  assert (fetchListener P request =
            (admitted_body request ping ++ [],
             Normal (jsonResponse {| env_type := InteractionResponseType.Pong;
                                     env_data := None |}))) as Hrun.
  { eapply listener_routed; [done|done| |reflexivity]. by apply routed_ping. }
  rewrite app_nil_r in Hrun. rewrite Hrun. split; [done|].
  by repeat constructor.
Qed.

Lemma ping_pong_witness :
  commands Demo.bare = ∅
  ∧ outcome (fetchListener Demo.bare (Demo.post "good" "ping")) =
      Normal {| status := 200;
                headers := [("Content-Type", "application/json")];
                body := JsonBody {| env_type := 1; env_data := None |} |}.
Proof.
  split; [reflexivity|].
  destruct (ping_pong Demo.bare (Demo.post "good" "ping") Demo.ping
              eq_refl eq_refl eq_refl eq_refl eq_refl) as [-> _].
  reflexivity.
Defined.

(** C8. When the signature verifies and the body is not JSON, the request
    path produces no response at all: the error of [JSON.parse] leaves
    [handleRequest], the listener reports it once and throws it again to
    the runtime. *)
Theorem unparsable_body_escapes (P : Platform) (request : Request) (err : JsError) :
  req_method request = "POST" →
  req_pathname request = "/interactions" →
  verify P request (req_text request) = true →
  JSON_parse P (req_text request) = Thrown err →
  handleRequest P request = (gate request ++ [JSONParse (req_text request)], Thrown err)
  ∧ fetchListener P request =
      (gate request ++ [JSONParse (req_text request); CaptureException err], Thrown err)
  ∧ (∀ resp, outcome (fetchListener P request) ≠ Normal resp)
  ∧ reports (trace (fetchListener P request)) = [err].
Proof.
  intros Hpost Hpath Hv Hparse.
  assert (handleRequest P request =
            (gate request ++ [JSONParse (req_text request)], Thrown err)) as Hreq.
  { rewrite handleRequest_interactions by done. by apply handleInteraction_unparsed. }
  pose proof (fetchListener_thrown P request _ _ Hreq) as Hrun.
  rewrite <- app_assoc in Hrun. split; [done|]. split; [done|].
  rewrite Hrun. split; [by intros resp|reflexivity].
Qed.

Lemma unparsable_body_escapes_witness :
  ∃ err,
    JSON_parse Demo.platform "{type:" = Thrown err
    ∧ fetchListener Demo.platform (Demo.post "good" "{type:") =
        (gate (Demo.post "good" "{type:") ++ [JSONParse "{type:"; CaptureException err],
         Thrown err).
Proof.
  eexists. split; [reflexivity|].
  apply (unparsable_body_escapes Demo.platform (Demo.post "good" "{type:")); reflexivity.
Defined.




(** C5. A verified command interaction whose handler is found and whose
    [execute] throws: the error is handed to the reporter, after the scope
    was tagged [command] with the command's name; the response is the 200
    chat message with the fixed apology and the ephemeral flag, the same
    whatever was thrown. *)
Theorem command_failure_is_reported (P : Platform) (request : Request) (cmd : Interaction)
    (commandData : CommandData) (command : HandlerUnit)
    (tr : list Event) (err : JsError) :
  req_method request = "POST" →
  req_pathname request = "/interactions" →
  verify P request (req_text request) = true →
  JSON_parse P (req_text request) = Normal cmd →
  body_type cmd = InteractionType.ApplicationCommand →
  commands P !! data_id (body_data cmd) = Some commandData →
  import_module P (command_path commandData) = Normal command →
  execute command cmd jsonResponse = (tr, Thrown err) →
  fetchListener P request =
    (admitted_body request cmd ++
       [SentrySetTransactionName ("command: " +:+ data_name (body_data cmd));
        SentrySetTag "command" (data_name (body_data cmd));
        LookupCommand (data_id (body_data cmd));
        ImportModule (command_path commandData);
        ExecuteHandler (command_path commandData) cmd] ++
       tr ++ [ConsoleLog cmd; CaptureException err],
     Normal
       {| status := 200;
          headers := [("Content-Type", "application/json")];
          body := JsonBody
            {| env_type := InteractionResponseType.ChannelMessageWithSource;
               env_data := Some
                 {| content :=
                      Some "An unexpected error occurred when executing the command.";
                    flags := Some 64%Z;
                    embeds := None;
                    components := None |} |} |})
  ∧ reports (trace (fetchListener P request)) = reports tr ++ [err].
Proof.
  intros Hpost Hpath Hv Hparse Htype Hsome Himport Hexec.
  pose proof (command_failed P cmd commandData command tr err Hsome Himport Hexec) as Hcmd.
  pose proof (listener_routed P request Hpost Hpath cmd _ _ _
                (routed_command P request cmd Hv Hparse Htype) Hcmd) as Hrun.
  rewrite Hrun. split; [reflexivity|].
  cbn [trace fst]. rewrite !reports_app. reflexivity.
Qed.

Lemma command_failure_is_reported_witness :
  reports (trace (fetchListener Demo.platform (Demo.post "good" "broken"))) = [Demo.boom].
Proof.
  apply (command_failure_is_reported Demo.platform (Demo.post "good" "broken") Demo.broken
           {| cmd_name := "broken"; cmd_file := "broken.js" |} (Demo.throwing Demo.boom)
           [SentrySetTag "stage" "execute"] Demo.boom); reflexivity.
Defined.

(** C2, as amended. A verified component interaction. If the module for
    [data.custom_id] cannot be resolved (the loader throws an error whose
    code is MODULE_NOT_FOUND), the response is 404 with no body and nothing
    is reported. If the module loads and [execute] throws an error whose
    code is not MODULE_NOT_FOUND, the response is 500 with no body and the
    router reports that error once: the reports of the run are the
    handler's own, then this one. *)
Theorem component_failures (P : Platform) (request : Request) (click : Interaction) :
  req_method request = "POST" →
  req_pathname request = "/interactions" →
  verify P request (req_text request) = true →
  JSON_parse P (req_text request) = Normal click →
  body_type click = InteractionType.MessageComponent →
  (∀ err,
     import_module P (component_path click) = Thrown err →
     err_code err = Some "MODULE_NOT_FOUND" →
     fetchListener P request =
       (admitted_body request click ++ component_scope click,
        Normal {| status := 404; headers := []; body := NoBody |})
     ∧ reports (trace (fetchListener P request)) = [])
  ∧ (∀ component tr err,
       import_module P (component_path click) = Normal component →
       execute component click jsonResponse = (tr, Thrown err) →
       err_code err ≠ Some "MODULE_NOT_FOUND" →
       fetchListener P request =
         (admitted_body request click ++ component_scope click ++
            [ExecuteHandler (component_path click) click] ++ tr ++
            [ConsoleLog click; CaptureException err],
          Normal {| status := 500; headers := []; body := NoBody |})
       ∧ reports (trace (fetchListener P request)) = reports tr ++ [err]).
Proof.
  intros Hpost Hpath Hv Hparse Htype.
  pose proof (routed_component P request click Hv Hparse Htype) as Hroute.
  split.
  - intros err Himport Hcode.
    pose proof (component_missing P click err Himport) as Hc.
    rewrite (code_is_module_not_found err Hcode), app_nil_r in Hc.
    rewrite (listener_routed P request Hpost Hpath click _ _ _ Hroute Hc).
    by split.
  - intros component tr err Himport Hexec Hcode.
    pose proof (component_failed P click component tr err Himport Hexec) as Hc.
    rewrite (other_code_is_not err Hcode) in Hc.
    rewrite (listener_routed P request Hpost Hpath click _ _ _ Hroute Hc).
    split; [reflexivity|].
    cbn [trace fst]. rewrite !reports_app. reflexivity.
Qed.

Lemma component_failures_witness :
  (fetchListener Demo.platform (Demo.post "good" "stale click") =
     (admitted_body (Demo.post "good" "stale click") Demo.stale_click
        ++ component_scope Demo.stale_click,
      Normal {| status := 404; headers := []; body := NoBody |})
   ∧ reports (trace (fetchListener Demo.platform (Demo.post "good" "stale click"))) = [])
  ∧ reports (trace (fetchListener Demo.platform (Demo.post "good" "refresh click")))
      = [Demo.boom].
Proof.
  split.
  - apply (proj1 (component_failures Demo.platform (Demo.post "good" "stale click")
                    Demo.stale_click eq_refl eq_refl eq_refl eq_refl eq_refl)
             (Demo.not_found "./components/stale-id.js")); reflexivity.
  - apply (proj2 (component_failures Demo.platform (Demo.post "good" "refresh click")
                    Demo.refresh_click eq_refl eq_refl eq_refl eq_refl eq_refl)
             (Demo.throwing Demo.boom) [SentrySetTag "stage" "execute"] Demo.boom);
      [reflexivity|reflexivity|discriminate].
Defined.

(** C2 as first stated fails: the module of [nested] loads and its
    [execute] throws, yet the error carries the code MODULE_NOT_FOUND, so
    the response is 404, not 500, and the router reports nothing. *)
Lemma component_failures_counterexample :
  import_module Demo.platform (component_path Demo.nested_click) =
    Normal (Demo.throwing (Demo.not_found "./lib.js"))
  ∧ outcome (execute (Demo.throwing (Demo.not_found "./lib.js")) Demo.nested_click
               jsonResponse) = Thrown (Demo.not_found "./lib.js")
  ∧ outcome (fetchListener Demo.platform (Demo.post "good" "nested click")) =
      Normal {| status := 404; headers := []; body := NoBody |}
  ∧ outcome (fetchListener Demo.platform (Demo.post "good" "nested click")) ≠
      Normal {| status := 500; headers := []; body := NoBody |}
  ∧ reports (trace (fetchListener Demo.platform (Demo.post "good" "nested click"))) = [].
Proof.
  split; [reflexivity|]. split; [reflexivity|]. split; [reflexivity|].
  split; [discriminate|reflexivity].
Qed.



(* ===================================================================== *)
(** * The dig command: acknowledgement and background task *)
(* ===================================================================== *)

Lemma reports_turns (n : nat) : reports (turns n) = [].
Proof. induction n as [|n IH]; [done|exact IH]. Qed.

Lemma edits_turns (n : nat) : edits (turns n) = [].
Proof. induction n as [|n IH]; [done|exact IH]. Qed.

Lemma fallback_turns (n : nat) : filter (fun ev => is_fallback_edit ev = true) (turns n) = [].
Proof. induction n as [|n IH]; [done|exact IH]. Qed.

Section DigCommand.
Variable E : Dig.Env.
Variable interaction : Interaction.

(** The work of the task, case by case: the lookup rejects; it resolves
    but there is no provider to name; it resolves and the edit is sent. *)
Lemma digWork_cases (opts : DigOpts) :
  Dig.digWork E interaction opts =
    match settled (Dig.handleDig E opts), dig_provider opts with
    | Thrown err, _ => (turns (pending_turns (Dig.handleDig E opts)), Thrown err)
    | Normal _, None =>
        (turns (pending_turns (Dig.handleDig E opts)),
         Thrown (TypeError "Cannot read properties of undefined (reading 'name')"))
    | Normal embeds, Some p =>
        let payload := Dig.result_message E (head embeds) (provider_name p) in
        (turns (pending_turns (Dig.handleDig E opts)) ++
           EditDeferred interaction payload ::
           turns (pending_turns (Dig.editDeferred E interaction payload)),
         settled (Dig.editDeferred E interaction payload))
    end.
Proof.
  unfold Dig.digWork, Dig.call_editDeferred, await, turns.
  destruct (settled (Dig.handleDig E opts)) as [embeds|err]; [|reflexivity].
  destruct (dig_provider opts) as [p|]; [reflexivity|].
  cbn. by rewrite app_nil_r.
Qed.

(** The work reports nothing itself and never sends the failure message. *)
Lemma digWork_quiet (opts : DigOpts) :
  reports (trace (Dig.digWork E interaction opts)) = []
  ∧ filter (fun ev => is_fallback_edit ev = true) (trace (Dig.digWork E interaction opts)) = [].
Proof.
  rewrite digWork_cases.
  destruct (settled (Dig.handleDig E opts)) as [embeds|err];
    [destruct (dig_provider opts) as [p|]|]; cbn [trace fst];
    rewrite ?reports_app, ?filter_app, ?reports_turns, ?fallback_turns; try done.
  split.
  - cbn. apply reports_turns.
  - rewrite filter_cons_False by (cbn; done). apply fallback_turns.
Qed.

Lemma digTask_failed (opts : DigOpts) (tr : list Event) (err : JsError) :
  Dig.digWork E interaction opts = (tr, Thrown err) →
  Dig.digTask E interaction opts =
    (tr ++ [CaptureException err; EditDeferred interaction Dig.failure_message], Thrown err).
Proof.
  intros Hwork. unfold Dig.digTask, Dig.digFailed, Dig.call_editDeferred.
  rewrite Hwork. reflexivity.
Qed.

Variable response : ResponseEnvelope -> Response.
Variables rawDomain rawType rawProvider : string.
Variables rawShort rawCdflag : JsValue.
Hypothesis read_domain : Dig.raw_string interaction "domain" = ret rawDomain.
Hypothesis read_type : Dig.raw_string interaction "type" = ret rawType.
Hypothesis read_short : Dig.raw_flag interaction "short" = ret rawShort.
Hypothesis read_cdflag : Dig.raw_flag interaction "cdflag" = ret rawCdflag.
Hypothesis read_provider : Dig.raw_string interaction "provider" = ret rawProvider.
Hypothesis valid_domain : Dig.error (Dig.validateDomain E rawDomain response) = None.

(** What [execute] does, start to return, when the domain is accepted. *)
Lemma execute_accepted :
  let opts :=
    Dig.make_opts (Dig.domain (Dig.validateDomain E rawDomain response))
      (Dig.select_type E rawType) rawShort rawCdflag (Dig.select_provider E rawProvider) in
  Dig.execute E interaction response =
    ([ValidateDomain rawDomain; HandleDig opts; WaitUntil (DigTask interaction opts)],
     Normal (response Dig.deferred_ack)).
Proof using read_domain read_type read_short read_cdflag read_provider valid_domain.
  unfold Dig.execute.
  rewrite read_domain, bind_ret, read_type, bind_ret, read_short, bind_ret,
    read_cdflag, bind_ret, read_provider, bind_ret.
  unfold Dig.call_validateDomain, Dig.call_handleDig. run.
  rewrite valid_domain. reflexivity.
Qed.
End DigCommand.

(** Reading an option that is absent gives the empty string. *)
Lemma raw_string_missing (interaction : Interaction) (options : list CommandOption)
    (n s : string) :
  data_options (body_data interaction) = Some options →
  (∀ opt, opt ∈ options → opt_name opt ≠ n) →
  Dig.raw_string interaction n = ret s →
  s = "".
Proof.
  intros Hopts Hmissing. unfold Dig.raw_string, Dig.option_value, Dig.find_value.
  rewrite Hopts.
  destruct (find _ options) as [opt|] eqn:Hfind.
  - apply find_some in Hfind as [Hin Heq].
    apply String.eqb_eq in Heq. apply list_elem_of_In in Hin.
    by destruct (Hmissing opt Hin).
  - cbn. by intros [= <-].
Qed.

(** [VALID_TYPES.includes(rawType) ? rawType : 'A'] in terms of membership. *)
Lemma select_type_spec (E : Dig.Env) (rawType : string) :
  Dig.select_type E rawType =
    if bool_decide (rawType ∈ Dig.VALID_TYPES E) then rawType else "A".
Proof.
  unfold Dig.select_type.
  destruct (existsb _ _) eqn:Hex.
  - apply existsb_exists in Hex as (t & Hin & Heq).
    apply String.eqb_eq in Heq as <-. apply list_elem_of_In in Hin.
    by rewrite bool_decide_eq_true_2.
  - rewrite bool_decide_eq_false_2; [done|].
    intros Hin. apply list_elem_of_In in Hin.
    assert (existsb (String.eqb rawType) (Dig.VALID_TYPES E) = true) as Hyes.
    { apply existsb_exists. exists rawType. split; [done|]. apply String.eqb_refl. }
    congruence.
Qed.

Lemma find_by_name (ps : list Provider) (n : string) :
  find (fun p => String.eqb (provider_name p) n) ps =
    snd <$> list_find (fun p => provider_name p = n) ps.
Proof.
  induction ps as [|p ps IH]; [done|].
  cbn [find list_find].
  destruct (String.eqb_spec (provider_name p) n) as [Heq|Hne].
  - by rewrite decide_True.
  - rewrite decide_False, IH by done.
    by destruct (list_find _ ps) as [[j q]|].
Qed.

(** [providers.find(p => p.name === rawProvider) || providers[0]] in terms
    of the first entry bearing the name. *)
Lemma select_provider_spec (E : Dig.Env) (rawProvider : string) :
  Dig.select_provider E rawProvider =
    match list_find (fun p => provider_name p = rawProvider) (Dig.providers E) with
    | Some (_, p) => Some p
    | None => Dig.providers E !! 0
    end.
Proof.
  unfold Dig.select_provider. rewrite find_by_name.
  destruct (list_find _ _) as [[j p]|]; [done|]. cbn. by destruct (Dig.providers E).
Qed.

(** C3. Whenever the dig handler gets past validation, what [execute]
    returns is the responder's rendering of the deferred-acknowledgement
    envelope (type 5, no data), and no edit has been issued by then: every
    [editDeferred] of the whole timeline sits after the last event of the
    synchronous run, however many turns the lookup stays pending; and
    when the lookup resolves, the edit of this interaction is indeed there. *)
Theorem acknowledgement_precedes_edit (E : Dig.Env) (interaction : Interaction)
    (response : ResponseEnvelope -> Response)
    (rawDomain rawType rawProvider : string) (rawShort rawCdflag : JsValue) :
  Dig.raw_string interaction "domain" = ret rawDomain →
  Dig.raw_string interaction "type" = ret rawType →
  Dig.raw_flag interaction "short" = ret rawShort →
  Dig.raw_flag interaction "cdflag" = ret rawCdflag →
  Dig.raw_string interaction "provider" = ret rawProvider →
  Dig.error (Dig.validateDomain E rawDomain response) = None →
  let opts :=
    Dig.make_opts (Dig.domain (Dig.validateDomain E rawDomain response))
      (Dig.select_type E rawType) rawShort rawCdflag (Dig.select_provider E rawProvider) in
  let run := Dig.execute E interaction response in
  outcome run = Normal (response {| env_type := 5; env_data := None |})
  ∧ scheduled (trace run) = [DigTask interaction opts]
  ∧ edits (trace run) = []
  ∧ (∀ k target payload,
       timeline E run !! k = Some (EditDeferred target payload) → length (trace run) ≤ k)
  ∧ (∀ embeds p,
       settled (Dig.handleDig E opts) = Normal embeds →
       dig_provider opts = Some p →
       ∃ k, length (trace run) ≤ k
            ∧ timeline E run !! k =
                Some (EditDeferred interaction
                        (Dig.result_message E (head embeds) (provider_name p)))).
Proof.
  intros Hd Ht Hs Hc Hp Hvalid opts run.
  pose proof (execute_accepted E interaction response _ _ _ _ _ Hd Ht Hs Hc Hp Hvalid)
    as Hrun.
  cbv zeta in Hrun. fold opts in Hrun. fold run in Hrun.
  unfold timeline. rewrite Hrun. cbn [trace outcome fst snd].
  repeat split.
  - intros k target payload Hk.
    destruct k as [|[|[|k]]]; cbn in Hk; try discriminate. cbn. lia.
  - intros embeds p Hdig Hprov.
    exists (3 + pending_turns (Dig.handleDig E opts)). split; [cbn; lia|].
    change (scheduled _) with [DigTask interaction opts].
    cbn [map concat resume]. unfold Dig.digTask.
    rewrite digWork_cases, Hdig, Hprov. cbv zeta.
    rewrite try_catch_trace_prefix. cbn [trace fst].
    rewrite app_nil_r, <- !app_assoc.
    change (?a :: ?b :: ?c :: ?l ++ ?r) with ([a; b; c] ++ l ++ r).
    rewrite app_assoc, (app_assoc _ (_ :: _)).
    rewrite lookup_app_l.
    + apply list_lookup_middle. rewrite length_app. unfold turns.
      rewrite repeat_length. reflexivity.
    + rewrite !length_app. cbn. unfold turns. rewrite repeat_length. lia.
Qed.

Lemma acknowledgement_precedes_edit_witness :
  outcome (Dig.execute Demo.digEnv Demo.dig jsonResponse) =
    Normal (jsonResponse {| env_type := 5; env_data := None |})
  ∧ edits (trace (Dig.execute Demo.digEnv Demo.dig jsonResponse)) = [].
Proof.
  pose proof (acknowledgement_precedes_edit Demo.digEnv Demo.dig jsonResponse
                "example.com" "BOGUS" "nobody" (JsBoolean true) (JsBoolean false)
                eq_refl eq_refl eq_refl eq_refl eq_refl eq_refl) as H.
  cbv zeta in H. destruct H as (Hack & _ & Hedits & _). exact (conj Hack Hedits).
Defined.

(** C4. When the work of a scheduled task throws (the lookup rejects, the
    provider cannot be named, or the edit of the result rejects), the task
    reports that error, sends exactly one edit carrying the fixed failure
    message, to the same interaction, and rejects with the very same
    error, which is what the runtime then sees. How that last edit
    settles plays no part: its rejection is dropped. *)
Theorem background_failure (E : Dig.Env) (interaction : Interaction) (opts : DigOpts)
    (tr : list Event) (err : JsError) :
  Dig.digWork E interaction opts = (tr, Thrown err) →
  resume E (DigTask interaction opts) =
    (tr ++ [CaptureException err; EditDeferred interaction Dig.failure_message], Thrown err)
  ∧ filter (fun ev => is_fallback_edit ev = true) (trace (resume E (DigTask interaction opts)))
      = [EditDeferred interaction Dig.failure_message]
  ∧ reports (trace (resume E (DigTask interaction opts))) = [err]
  ∧ (∀ err', settled (Dig.editDeferred E interaction Dig.failure_message) = Thrown err' →
       outcome (resume E (DigTask interaction opts)) = Thrown err).
Proof.
  intros Hwork.
  pose proof (digTask_failed E interaction opts tr err Hwork) as Htask.
  destruct (digWork_quiet E interaction opts) as [Hquiet Hnone].
  rewrite Hwork in Hquiet, Hnone. cbn [trace fst] in Hquiet, Hnone.
  cbn [resume]. rewrite Htask. cbn [trace outcome fst snd].
  split; [reflexivity|]. split; [|split].
  - rewrite filter_app, Hnone. reflexivity.
  - rewrite reports_app, Hquiet. reflexivity.
  - reflexivity.
Qed.

Lemma background_failure_witness :
  settled (Dig.editDeferred Demo.digEnv Demo.dig_down Dig.failure_message)
    = Thrown (Demo.not_found "fetch")
  ∧ resume Demo.digEnv
      (DigTask Demo.dig_down
         (Dig.make_opts "down.example" "A" (JsBoolean false) (JsBoolean false)
            (Some Demo.cloudflare))) =
      (turns 3 ++ [CaptureException Demo.boom;
                   EditDeferred Demo.dig_down Dig.failure_message],
       Thrown Demo.boom).
Proof.
  split; [reflexivity|].
  apply (background_failure Demo.digEnv Demo.dig_down
           (Dig.make_opts "down.example" "A" (JsBoolean false) (JsBoolean false)
              (Some Demo.cloudflare))
           (turns 3) Demo.boom).
  reflexivity.
Defined.

Lemma raw_flag_reads (interaction : Interaction) (options : list CommandOption)
    (n : string) :
  data_options (body_data interaction) = Some options →
  Dig.raw_flag interaction n = ret (js_or (Dig.find_value options n) (JsBoolean false)).
Proof.
  intros Hopts. unfold Dig.raw_flag, Dig.option_value. by rewrite Hopts.
Qed.

(** A string, or a falsy value, reads as its text, trimmed. *)
Lemma raw_string_trimmable (interaction : Interaction) (options : list CommandOption)
    (n : string) :
  data_options (body_data interaction) = Some options →
  trimmable (Dig.find_value options n) →
  Dig.raw_string interaction n = ret (trim (text_of (Dig.find_value options n))).
Proof.
  intros Hopts Hv. unfold Dig.raw_string, Dig.option_value. rewrite Hopts. run.
  unfold js_or. destruct Hv as [Hfalsy|[s Hs]].
  - rewrite Hfalsy. destruct (Dig.find_value options n) as [|b|z|s]; try reflexivity.
    cbn in Hfalsy. apply negb_false_iff, String.eqb_eq in Hfalsy. by subst s.
  - rewrite Hs. cbn [truthy text_of].
    destruct (String.eqb_spec s "") as [->|Hne]; reflexivity.
Qed.

Lemma find_value_missing (options : list CommandOption) (n : string) :
  (∀ opt, opt ∈ options → opt_name opt ≠ n) → Dig.find_value options n = JsUndefined.
Proof.
  intros Hmissing. unfold Dig.find_value.
  destruct (find _ options) as [opt|] eqn:Hfind; [|done].
  apply find_some in Hfind as [Hin Heq].
  apply String.eqb_eq in Heq. apply list_elem_of_In in Hin.
  by destruct (Hmissing opt Hin).
Qed.

(** C10, as amended. With a domain that passes validation, and [type] and
    [provider] options that hold strings or are missing or falsy,
    [execute] answers with the deferred acknowledgement and never with an
    error, and what it hands to [handleDig] is: for the type, the trimmed
    text if it is one of VALID_TYPES and ['A'] otherwise; for the provider,
    the first entry of the table bearing the trimmed text as its name, and
    the table's first entry if there is none. A missing option reads as
    the empty string and is treated the same way. *)
Theorem option_fallbacks (E : Dig.Env) (interaction : Interaction)
    (response : ResponseEnvelope -> Response) (options : list CommandOption) :
  data_options (body_data interaction) = Some options →
  trimmable (Dig.find_value options "domain") →
  trimmable (Dig.find_value options "type") →
  trimmable (Dig.find_value options "provider") →
  let rawDomain := trim (text_of (Dig.find_value options "domain")) in
  let rawType := trim (text_of (Dig.find_value options "type")) in
  let rawProvider := trim (text_of (Dig.find_value options "provider")) in
  Dig.error (Dig.validateDomain E rawDomain response) = None →
  ∃ opts,
    Dig.execute E interaction response =
      ([ValidateDomain rawDomain; HandleDig opts; WaitUntil (DigTask interaction opts)],
       Normal (response Dig.deferred_ack))
    ∧ dig_types opts =
        [if bool_decide (rawType ∈ Dig.VALID_TYPES E) then rawType else "A"]
    ∧ dig_provider opts =
        match list_find (fun p => provider_name p = rawProvider) (Dig.providers E) with
        | Some (_, p) => Some p
        | None => Dig.providers E !! 0
        end
    ∧ (rawType ∉ Dig.VALID_TYPES E → dig_types opts = ["A"])
    ∧ ((∀ p, p ∈ Dig.providers E → provider_name p ≠ rawProvider) →
         dig_provider opts = Dig.providers E !! 0)
    ∧ ((∀ opt, opt ∈ options → opt_name opt ≠ "type") → rawType = "")
    ∧ ((∀ opt, opt ∈ options → opt_name opt ≠ "provider") → rawProvider = "").
Proof.
  intros Hopts Hd Ht Hp rawDomain rawType rawProvider Hvalid.
  pose proof (execute_accepted E interaction response _ _ _ _ _
                (raw_string_trimmable interaction options "domain" Hopts Hd)
                (raw_string_trimmable interaction options "type" Hopts Ht)
                (raw_flag_reads interaction options "short" Hopts)
                (raw_flag_reads interaction options "cdflag" Hopts)
                (raw_string_trimmable interaction options "provider" Hopts Hp)
                Hvalid) as Hrun.
  cbv zeta in Hrun. fold rawDomain rawType rawProvider in Hrun.
  eexists. split; [exact Hrun|].
  cbn [dig_types dig_provider Dig.make_opts].
  rewrite select_type_spec, select_provider_spec.
  split; [done|]. split; [done|]. split; [|split; [|split]].
  - intros Hnot. by rewrite bool_decide_eq_false_2.
  - intros Hnone.
    destruct (list_find _ _) as [[k p]|] eqn:Hfind; [|done].
    apply list_find_Some in Hfind as (Hk & Hname & _).
    destruct (Hnone p); [by eapply list_elem_of_lookup_2|done].
  - intros Hmissing. unfold rawType. by rewrite (find_value_missing _ _ Hmissing).
  - intros Hmissing. unfold rawProvider. by rewrite (find_value_missing _ _ Hmissing).
Qed.

Lemma option_fallbacks_witness :
  ∃ opts,
    Dig.execute Demo.digEnv Demo.dig jsonResponse =
      ([ValidateDomain "example.com"; HandleDig opts; WaitUntil (DigTask Demo.dig opts)],
       Normal (jsonResponse Dig.deferred_ack))
    ∧ dig_types opts = ["A"]
    ∧ dig_provider opts = Some Demo.cloudflare.
Proof.
  destruct (option_fallbacks Demo.digEnv Demo.dig jsonResponse Demo.dig_options eq_refl
              (or_intror (ex_intro _ " example.com " eq_refl))
              (or_intror (ex_intro _ "BOGUS" eq_refl))
              (or_intror (ex_intro _ "nobody" eq_refl))
              eq_refl) as (opts & Hrun & Htypes & Hprovider & _).
  exists opts. split; [exact Hrun|]. split; [exact Htypes|exact Hprovider].
Defined.

(** C10 as first stated fails: with the valid domain [example.com] and
    the number 28 under [type], the read of the option throws, [execute]
    rejects before doing anything, and the router answers with its error
    apology. *)
Lemma option_fallbacks_counterexample :
  Dig.error (Dig.validateDomain Demo.digEnv "example.com" jsonResponse) = None
  ∧ Dig.find_value [ {| opt_name := "domain"; opt_value := JsString "example.com" |};
                     {| opt_name := "type"; opt_value := JsNumber 28 |} ] "type"
      = JsNumber 28
  ∧ Dig.execute Demo.digEnv Probe.numeric_type jsonResponse =
      ([], Thrown (TypeError "trim is not a function"))
  ∧ outcome (fetchListener (Probe.answering Probe.numeric_type) (Demo.post "good" "dig")) =
      Normal (jsonResponse command_error_message)
  ∧ jsonResponse command_error_message ≠ jsonResponse Dig.deferred_ack.
Proof.
  split; [reflexivity|]. split; [reflexivity|]. split; [reflexivity|].
  split; [reflexivity|discriminate].
Qed.

(* ===================================================================== *)
(** * When the option reads succeed *)
(* ===================================================================== *)

(** With [options] present and string (or falsy) values under [domain],
    [type] and [provider], the five reads of [execute] all return. *)
Lemma raw_string_reads (interaction : Interaction) (options : list CommandOption)
    (n : string) :
  data_options (body_data interaction) = Some options →
  trimmable (Dig.find_value options n) →
  ∃ s, Dig.raw_string interaction n = ret s.
Proof.
  intros Hopts Hv. unfold Dig.raw_string, Dig.option_value. rewrite Hopts.
  run. unfold js_or. destruct Hv as [Hfalsy|[s Hs]].
  - rewrite Hfalsy. by eexists.
  - rewrite Hs. cbn [truthy]. destruct (negb _); by eexists.
Qed.

(** [trim] on white space beyond ASCII: a no-break space in front, a line
    separator and a space behind; a zero width space (U+200B) is no white
    space and stays. *)
Example trim_beyond_ascii :
  trim (string_of_list_ascii
          (utf8 [194; 160]%N ++ bytes "MX" ++ utf8 [226; 128; 168; 32]%N)) = "MX"
  ∧ trim (string_of_list_ascii (utf8 [226; 128; 139]%N ++ bytes " MX")) =
      string_of_list_ascii (utf8 [226; 128; 139]%N ++ bytes " MX")
  ∧ trim "   " = "".
Proof. repeat split; reflexivity. Qed.

(** A truthy value that is not a string has no [trim]: the read throws, and
    the router turns that into its apology. *)
Example type_option_not_a_string :
  Dig.raw_string
    (Demo.interaction 2 "100" "dig" ""
       (Some [ {| opt_name := "domain"; opt_value := JsString "example.com" |};
               {| opt_name := "type"; opt_value := JsBoolean true |} ]))
    "type"
  = throw (TypeError "trim is not a function").
Proof. reflexivity. Qed.

(** With no [options] at all, the first read already throws. *)
Example options_absent :
  outcome (Dig.execute Demo.digEnv (Demo.interaction 2 "100" "dig" "" None) jsonResponse)
  = Thrown (TypeError "Cannot read properties of undefined (reading 'find')").
Proof. reflexivity. Qed.

(** A domain that fails validation is answered with the validator's own
    response, and nothing is scheduled. *)
Example empty_domain_rejected :
  let i := Demo.interaction 2 "100" "dig" ""
             (Some [ {| opt_name := "domain"; opt_value := JsString "   " |} ]) in
  trace (Dig.execute Demo.digEnv i jsonResponse) = [ValidateDomain ""]
  ∧ scheduled (trace (Dig.execute Demo.digEnv i jsonResponse)) = [].
Proof. split; reflexivity. Qed.

(** The whole timeline of a lookup that fails, on the concrete worker: the
    acknowledgement goes out first, then the task reports, sends the
    failure message and rejects. *)
Example failing_lookup_timeline :
  timeline Demo.digEnv (Dig.execute Demo.digEnv Demo.dig_down jsonResponse) =
    let opts := Dig.make_opts "down.example" "A" (JsBoolean false) (JsBoolean false)
                  (Some Demo.cloudflare) in
    [ValidateDomain "down.example"; HandleDig opts; WaitUntil (DigTask Demo.dig_down opts)]
      ++ turns 3
      ++ [CaptureException Demo.boom; EditDeferred Demo.dig_down Dig.failure_message].
Proof. reflexivity. Qed.

(* ===================================================================== *)
(** * More about the router *)
(* ===================================================================== *)



Lemma command_unloadable (P : Platform) (cmd : Interaction) (commandData : CommandData)
    (err : JsError) :
  commands P !! data_id (body_data cmd) = Some commandData →
  import_module P (command_path commandData) = Thrown err →
  handleCommandInteraction P cmd =
    (command_scope cmd ++ [ImportModule (command_path commandData)] ++ logged cmd err,
     Normal (jsonResponse command_error_message)).
Proof.
  intros Hsome Himport.
  unfold handleCommandInteraction, lookup_command, import, command_scope.
  run. rewrite (commands_get_entry P cmd commandData Hsome). cbn [file_of].
  fold (command_path commandData).
  run. rewrite Himport. reflexivity.
Qed.

Lemma component_answered (P : Platform) (click : Interaction) (component : HandlerUnit)
    (tr : list Event) (resp : Response) :
  import_module P (component_path click) = Normal component →
  execute component click jsonResponse = (tr, Normal resp) →
  handleComponentInteraction P click =
    (component_scope click ++ [ExecuteHandler (component_path click) click] ++ tr,
     Normal resp).
Proof.
  intros Himport Hexec.
  unfold handleComponentInteraction, import, component_scope.
  fold (component_path click). run. rewrite Himport. run. rewrite Hexec. reflexivity.
Qed.

(** Everything but [POST /interactions] is answered on the spot. *)
Lemma handleRequest_static (P : Platform) (request : Request) :
  ¬ (req_method request = "POST" ∧ req_pathname request = "/interactions") →
  ∃ resp, handleRequest P request = ([], Normal resp)
          ∧ (status resp = 200 ∨ status resp = 301 ∨ status resp = 404)%Z
          ∧ (req_method request ≠ "GET" → resp = statusResponse 404).
Proof.
  intros Hnot. unfold handleRequest.
  destruct (String.eqb_spec (req_method request) "POST") as [Hpost|Hpost];
    destruct (String.eqb_spec (req_pathname request) "/interactions") as [Hpath|Hpath];
    cbn [andb]; try (by destruct Hnot);
    (destruct (String.eqb_spec (req_method request) "GET") as [Hget|Hget]; cbn [negb];
     [|eexists; split; [reflexivity|]; split; [by right; right|done]]);
    repeat (match goal with
            | |- context [String.eqb ?a ?b] => destruct (String.eqb a b)
            end);
    eexists; (split; [reflexivity|]); (split; [|done]); cbn; auto.
Qed.

(** X1. A verified interaction whose type is none of Ping, ApplicationCommand
    and MessageComponent is answered 501 with no body; no table is read, no
    module loaded, no handler run, and nothing is reported. *)
Theorem unknown_type_unimplemented (P : Platform) (request : Request) (other : Interaction) :
  req_method request = "POST" →
  req_pathname request = "/interactions" →
  verify P request (req_text request) = true →
  JSON_parse P (req_text request) = Normal other →
  body_type other ≠ InteractionType.Ping →
  body_type other ≠ InteractionType.ApplicationCommand →
  body_type other ≠ InteractionType.MessageComponent →
  fetchListener P request =
    (admitted_body request other,
     Normal {| status := 501; headers := []; body := NoBody |})
  ∧ Forall (fun ev => is_handler_use ev = false) (trace (fetchListener P request))
  ∧ reports (trace (fetchListener P request)) = [].
Proof.
  intros Hpost Hpath Hv Hparse H1 H2 H3.
  assert (fetchListener P request =
            (admitted_body request other ++ [], Normal (statusResponse 501))) as Hrun.
  { eapply listener_routed; [done|done| |reflexivity].
    rewrite (handleInteraction_admitted P request other) by done.
    apply Z.eqb_neq in H1, H2, H3. by rewrite H1, H2, H3. }
  rewrite app_nil_r in Hrun. rewrite Hrun. split; [done|]. split; [|done].
  by repeat constructor.
Qed.

Lemma unknown_type_unimplemented_witness :
  ∃ autocomplete,
    body_type autocomplete = 4%Z
    ∧ outcome (fetchListener
                 {| verify := Demo.signed;
                    JSON_parse := fun _ => Normal autocomplete;
                    commands := ∅;
                    import_module := Demo.load;
                    Privacy := ""; Terms := ""; CLIENT_ID := "" |}
                 (Demo.post "good" "autocomplete"))
      = Normal (statusResponse 501).
Proof.
  exists (Demo.interaction 4 "100" "dig" "" None). split; [reflexivity|].
  destruct (unknown_type_unimplemented
              {| verify := Demo.signed;
                 JSON_parse := fun _ => Normal (Demo.interaction 4 "100" "dig" "" None);
                 commands := ∅;
                 import_module := Demo.load;
                 Privacy := ""; Terms := ""; CLIENT_ID := "" |}
              (Demo.post "good" "autocomplete") (Demo.interaction 4 "100" "dig" "" None)
              eq_refl eq_refl eq_refl eq_refl) as [-> _]; [done|done|done|].
  reflexivity.
Defined.

(** X2. On the command path a module that cannot be loaded is treated like
    a handler that threw: whatever the loader's error (MODULE_NOT_FOUND
    included, which on the component path means 404), it is reported and
    the caller gets the 200 apology; [execute] is never reached. *)
Theorem command_load_failure (P : Platform) (request : Request) (cmd : Interaction)
    (commandData : CommandData) (err : JsError) :
  req_method request = "POST" →
  req_pathname request = "/interactions" →
  verify P request (req_text request) = true →
  JSON_parse P (req_text request) = Normal cmd →
  body_type cmd = InteractionType.ApplicationCommand →
  commands P !! data_id (body_data cmd) = Some commandData →
  import_module P (command_path commandData) = Thrown err →
  fetchListener P request =
    (admitted_body request cmd ++ command_scope cmd ++
       [ImportModule (command_path commandData); ConsoleLog cmd; CaptureException err],
     Normal (jsonResponse command_error_message))
  ∧ reports (trace (fetchListener P request)) = [err]
  ∧ status (jsonResponse command_error_message) = 200%Z.
Proof.
  intros Hpost Hpath Hv Hparse Htype Hsome Himport.
  pose proof (command_unloadable P cmd commandData err Hsome Himport) as Hcmd.
  rewrite (listener_routed P request Hpost Hpath cmd _ _ _
             (routed_command P request cmd Hv Hparse Htype) Hcmd).
  done.
Qed.

Lemma command_load_failure_witness :
  fetchListener
    {| verify := Demo.signed; JSON_parse := Demo.parse;
       commands := {[ "100" := {| cmd_name := "dig"; cmd_file := "dig.js" |} ]};
       import_module := fun path => Thrown (Demo.not_found path);
       Privacy := ""; Terms := ""; CLIENT_ID := "" |}
    (Demo.post "good" "dig")
  = (admitted_body (Demo.post "good" "dig") Demo.dig ++ command_scope Demo.dig ++
       [ImportModule "./commands/dig.js"; ConsoleLog Demo.dig;
        CaptureException (Demo.not_found "./commands/dig.js")],
     Normal (jsonResponse command_error_message)).
Proof.
  apply (command_load_failure
           {| verify := Demo.signed; JSON_parse := Demo.parse;
              commands := {[ "100" := {| cmd_name := "dig"; cmd_file := "dig.js" |} ]};
              import_module := fun path => Thrown (Demo.not_found path);
              Privacy := ""; Terms := ""; CLIENT_ID := "" |}
           (Demo.post "good" "dig") Demo.dig
           {| cmd_name := "dig"; cmd_file := "dig.js" |}
           (Demo.not_found "./commands/dig.js")); reflexivity.
Defined.

Lemma listener_command_answered (P : Platform) (request : Request)
    (cmd : Interaction) (commandData : CommandData) (command : HandlerUnit)
    (tr : list Event) (resp : Response) :
  req_method request = "POST" →
  req_pathname request = "/interactions" →
  verify P request (req_text request) = true →
  JSON_parse P (req_text request) = Normal cmd →
  body_type cmd = InteractionType.ApplicationCommand →
  commands P !! data_id (body_data cmd) = Some commandData →
  import_module P (command_path commandData) = Normal command →
  execute command cmd jsonResponse = (tr, Normal resp) →
  fetchListener P request =
    (admitted_body request cmd ++ command_scope cmd ++
       [ImportModule (command_path commandData);
        ExecuteHandler (command_path commandData) cmd] ++ tr,
     Normal resp).
Proof.
  intros Hpost Hpath Hv Hparse Htype Hsome Himport Hexec.
  pose proof (command_answered P cmd commandData command tr resp Hsome Himport Hexec)
    as Hcmd.
  by rewrite (listener_routed P request Hpost Hpath cmd _ _ _
                (routed_command P request cmd Hv Hparse Htype) Hcmd).
Qed.

(** X3. When a command's [execute] returns, the listener answers with that
    very response; the router adds no [console.log] and no report of its
    own after the handler's events. *)
Theorem command_response_passes_through (P : Platform) (request : Request)
    (cmd : Interaction) (commandData : CommandData) (command : HandlerUnit)
    (tr : list Event) (resp : Response) :
  req_method request = "POST" →
  req_pathname request = "/interactions" →
  verify P request (req_text request) = true →
  JSON_parse P (req_text request) = Normal cmd →
  body_type cmd = InteractionType.ApplicationCommand →
  commands P !! data_id (body_data cmd) = Some commandData →
  import_module P (command_path commandData) = Normal command →
  execute command cmd jsonResponse = (tr, Normal resp) →
  fetchListener P request =
    (admitted_body request cmd ++ command_scope cmd ++
       [ImportModule (command_path commandData);
        ExecuteHandler (command_path commandData) cmd] ++ tr,
     Normal resp)
  ∧ reports (trace (fetchListener P request)) = reports tr.
Proof.
  intros Hpost Hpath Hv Hparse Htype Hsome Himport Hexec.
  pose proof (command_answered P cmd commandData command tr resp Hsome Himport Hexec)
    as Hcmd.
  rewrite (listener_routed P request Hpost Hpath cmd _ _ _
             (routed_command P request cmd Hv Hparse Htype) Hcmd).
  split; [reflexivity|]. cbn [trace fst]. by rewrite !reports_app.
Qed.

Lemma command_response_passes_through_witness :
  outcome (fetchListener Demo.platform (Demo.post "good" "dig")) =
    Normal (jsonResponse Dig.deferred_ack).
Proof.
  destruct (command_response_passes_through Demo.platform (Demo.post "good" "dig") Demo.dig
              {| cmd_name := "dig"; cmd_file := "dig.js" |} (Dig.command Demo.digEnv)
              (trace (Dig.execute Demo.digEnv Demo.dig jsonResponse))
              (jsonResponse Dig.deferred_ack)
              eq_refl eq_refl eq_refl eq_refl eq_refl eq_refl eq_refl eq_refl) as [-> _].
  reflexivity.
Defined.

(** X4. When a component's [execute] returns, the listener answers with
    that very response, and the router reports nothing of its own. *)
Theorem component_response_passes_through (P : Platform) (request : Request)
    (click : Interaction) (component : HandlerUnit) (tr : list Event) (resp : Response) :
  req_method request = "POST" →
  req_pathname request = "/interactions" →
  verify P request (req_text request) = true →
  JSON_parse P (req_text request) = Normal click →
  body_type click = InteractionType.MessageComponent →
  import_module P (component_path click) = Normal component →
  execute component click jsonResponse = (tr, Normal resp) →
  fetchListener P request =
    (admitted_body request click ++ component_scope click ++
       [ExecuteHandler (component_path click) click] ++ tr,
     Normal resp)
  ∧ reports (trace (fetchListener P request)) = reports tr.
Proof.
  intros Hpost Hpath Hv Hparse Htype Himport Hexec.
  pose proof (component_answered P click component tr resp Himport Hexec) as Hc.
  rewrite (listener_routed P request Hpost Hpath click _ _ _
             (routed_component P request click Hv Hparse Htype) Hc).
  split; [reflexivity|]. cbn [trace fst]. by rewrite !reports_app.
Qed.

Lemma component_response_passes_through_witness :
  outcome (fetchListener
             {| verify := Demo.signed; JSON_parse := Demo.parse; commands := ∅;
                import_module := fun _ =>
                  Normal {| execute := fun _ response =>
                              ret (response Dig.deferred_ack) |};
                Privacy := ""; Terms := ""; CLIENT_ID := "" |}
             (Demo.post "good" "refresh click"))
  = Normal (jsonResponse Dig.deferred_ack).
Proof.
  destruct (component_response_passes_through
              {| verify := Demo.signed; JSON_parse := Demo.parse; commands := ∅;
                 import_module := fun _ =>
                   Normal {| execute := fun _ response =>
                               ret (response Dig.deferred_ack) |};
                 Privacy := ""; Terms := ""; CLIENT_ID := "" |}
              (Demo.post "good" "refresh click") Demo.refresh_click
              {| execute := fun _ response => ret (response Dig.deferred_ack) |}
              [] (jsonResponse Dig.deferred_ack)
              eq_refl eq_refl eq_refl eq_refl eq_refl eq_refl eq_refl) as [-> _].
  reflexivity.
Defined.




(** X6. A request that is not [POST /interactions] never reaches the
    verifier, Sentry, the parser or a handler (it leaves no event at all),
    always gets a response, with status 200, 301 or 404, and gets the bare
    404 whenever its method is not GET. *)
Theorem other_requests_are_silent (P : Platform) (request : Request) :
  ¬ (req_method request = "POST" ∧ req_pathname request = "/interactions") →
  ∃ resp,
    fetchListener P request = ([], Normal resp)
    ∧ (status resp = 200 ∨ status resp = 301 ∨ status resp = 404)%Z
    ∧ (req_method request ≠ "GET" →
         resp = {| status := 404; headers := []; body := NoBody |}).
Proof.
  intros Hnot. destruct (handleRequest_static P request Hnot) as (resp & Hrun & Hst & H404).
  exists resp. split; [by apply fetchListener_normal|]. by split.
Qed.

Lemma other_requests_are_silent_witness :
  ∃ resp,
    fetchListener Demo.platform
      {| req_method := "PUT"; req_pathname := "/interactions";
         req_headers := [("X-Signature-Ed25519", "good")]; req_text := "ping" |}
      = ([], Normal resp)
    ∧ (status resp = 200 ∨ status resp = 301 ∨ status resp = 404)%Z
    ∧ ("PUT" ≠ "GET" → resp = {| status := 404; headers := []; body := NoBody |}).
Proof.
  apply (other_requests_are_silent Demo.platform
           {| req_method := "PUT"; req_pathname := "/interactions";
              req_headers := [("X-Signature-Ed25519", "good")]; req_text := "ping" |}).
  intros [Hm _]. discriminate Hm.
Defined.

(** X7. The GET routes. The path is matched exactly: the three text routes
    give 200, the four redirects give 301 with a Location header and no
    body, and every other path, [/interactions] included, gives the bare
    404. *)
Theorem get_routes (P : Platform) (request : Request) :
  req_method request = "GET" →
  ∃ resp,
    fetchListener P request = ([], Normal resp)
    ∧ (status resp = 200%Z ↔ req_pathname request ∈ ["/health"; "/privacy"; "/terms"])
    ∧ (status resp = 301%Z ↔ req_pathname request ∈ ["/invite"; "/server"; "/github"; "/"])
    ∧ (status resp = 301%Z → body resp = NoBody ∧ ∃ url, headers resp = [("Location", url)])
    ∧ (status resp ≠ 200%Z → status resp ≠ 301%Z →
         resp = {| status := 404; headers := []; body := NoBody |}).
Proof.
  intros Hget. unfold fetchListener, handleRequest. rewrite Hget.
  cbn [String.eqb Ascii.eqb Bool.eqb andb negb].
  repeat (match goal with
          | |- context [String.eqb (req_pathname request) ?lit] =>
              destruct (String.eqb_spec (req_pathname request) lit) as [Heq|?];
              [rewrite Heq; eexists; (split; [reflexivity|]);
               rewrite !elem_of_cons, !elem_of_nil; cbn;
               repeat split; try done; try (by eexists); intuition congruence|]
          end).
  eexists. split; [reflexivity|].
  rewrite !elem_of_cons, !elem_of_nil. cbn. repeat split; try done; intuition congruence.
Qed.

Lemma get_routes_witness :
  ∃ resp,
    fetchListener Demo.platform
      {| req_method := "GET"; req_pathname := "/health/"; req_headers := [];
         req_text := "" |} = ([], Normal resp)
    ∧ status resp = 404%Z.
Proof.
  destruct (get_routes Demo.platform
              {| req_method := "GET"; req_pathname := "/health/"; req_headers := [];
                 req_text := "" |} eq_refl) as (resp & Hrun & _).
  exists resp. split; [exact Hrun|].
  injection Hrun as <-. reflexivity.
Defined.

(* ===================================================================== *)
(** * More about the dig command *)
(* ===================================================================== *)

(** ** [trim] *)

Lemma drop_prefix_Some (p l rest : list ascii) :
  drop_prefix p l = Some rest ↔ l = p ++ rest.
Proof.
  revert l. induction p as [|a p IH]; intros l; cbn.
  - split; [by intros [= ->]|by intros ->].
  - destruct l as [|b l]; [by split|].
    destruct (Ascii.eqb_spec a b) as [->|Hne].
    + rewrite IH. split; [by intros ->|by intros [= ->]].
    + split; [done|]. intros [= ? ?]. by destruct Hne.
Qed.

Lemma drop_space_Some (ws : list (list ascii)) (l rest : list ascii) :
  drop_space ws l = Some rest → ∃ w, w ∈ ws ∧ l = w ++ rest.
Proof.
  induction ws as [|w ws IH]; cbn; [done|].
  destruct (drop_prefix w l) as [r|] eqn:Hw.
  - intros [= ->]. exists w. split; [by left|]. by apply drop_prefix_Some.
  - intros Hrest. destruct (IH Hrest) as (w' & Hin & Heq).
    exists w'. split; [by right|done].
Qed.

Lemma drop_space_None (ws : list (list ascii)) (l : list ascii) :
  drop_space ws l = None → ∀ w, w ∈ ws → ¬ w `prefix_of` l.
Proof.
  induction ws as [|w' ws IH]; cbn; intros Hnone w Hin.
  - by apply elem_of_nil in Hin.
  - destruct (drop_prefix w' l) as [r|] eqn:Hw; [done|].
    apply elem_of_cons in Hin as [->|Hin]; [|by apply IH].
    intros [k Hk]. apply drop_prefix_Some in Hk. congruence.
Qed.

Lemma run_of_app (ws : list (list ascii)) (a b : list ascii) :
  run_of ws a → run_of ws b → run_of ws (a ++ b).
Proof.
  induction 1 as [|w l Hw Hl IH]; [done|].
  intros Hb. rewrite <- app_assoc. constructor; [done|by apply IH].
Qed.

Lemma run_of_reverse (ws : list (list ascii)) (a : list ascii) :
  run_of (map reverse ws) a → run_of ws (reverse a).
Proof.
  induction 1 as [|w l Hw Hl IH]; [constructor|].
  apply list_elem_of_fmap in Hw as (w' & -> & Hw').
  rewrite reverse_app, reverse_involutive.
  apply run_of_app; [done|].
  rewrite <- (app_nil_r w'). constructor; [done|constructor].
Qed.

(** What [drop_spaces] removed was a run of [ws]. *)
Lemma drop_spaces_split (ws : list (list ascii)) (n : nat) (l : list ascii) :
  ∃ a, l = a ++ drop_spaces ws n l ∧ run_of ws a.
Proof.
  revert l. induction n as [|n IH]; intros l; cbn.
  - exists []. split; [done|constructor].
  - destruct (drop_space ws l) as [rest|] eqn:Hl.
    + apply drop_space_Some in Hl as (w & Hw & ->).
      destruct (IH rest) as (a & Ha & Hrun).
      exists (w ++ a). split; [|by constructor].
      rewrite <- app_assoc. by rewrite <- Ha.
    + exists []. split; [done|constructor].
Qed.

(** With enough fuel nothing of [ws] is left in front. *)
Lemma drop_spaces_done (ws : list (list ascii)) (n : nat) (l : list ascii) :
  Forall (fun w => w ≠ []) ws →
  length l ≤ n →
  drop_space ws (drop_spaces ws n l) = None.
Proof.
  intros Hws. revert l. induction n as [|n IH]; intros l Hlen; cbn.
  - destruct l; [|cbn in Hlen; lia].
    destruct (drop_space ws []) as [rest|] eqn:Hnil; [|done].
    apply drop_space_Some in Hnil as (w & Hw & Heq).
    symmetry in Heq. apply app_eq_nil in Heq as [-> _].
    rewrite Forall_forall in Hws. by destruct (Hws _ Hw).
  - destruct (drop_space ws l) as [rest|] eqn:Hl; [|done].
    apply IH. apply drop_space_Some in Hl as (w & Hw & ->).
    rewrite Forall_forall in Hws. specialize (Hws _ Hw).
    rewrite length_app in Hlen. destruct w; [done|]. cbn in Hlen. lia.
Qed.

Lemma white_space_nonempty : Forall (fun w => w ≠ []) white_space.
Proof. repeat constructor; discriminate. Qed.

Lemma reversed_white_space_nonempty : Forall (fun w => w ≠ []) (map reverse white_space).
Proof. repeat constructor; discriminate. Qed.

(** What [trim] does to the bytes: it removes a run of white space at each
    end, and leaves none at either end. *)
Lemma trim_bytes_spec (l : list ascii) :
  (∃ a b, l = a ++ trimEnd_bytes (trimStart_bytes l) ++ b ∧ blank a ∧ blank b)
  ∧ (∀ w, w ∈ white_space →
       ¬ w `prefix_of` trimEnd_bytes (trimStart_bytes l)
       ∧ ¬ w `suffix_of` trimEnd_bytes (trimStart_bytes l)).
Proof.
  set (m := trimStart_bytes l).
  destruct (drop_spaces_split white_space (length l) l) as (a & Ha & Hblank_a).
  fold (trimStart_bytes l) in Ha. fold m in Ha.
  destruct (drop_spaces_split (map reverse white_space) (length m) (reverse m))
    as (b' & Hb & Hrun_b).
  set (t := trimEnd_bytes m).
  assert (m = t ++ reverse b') as Hm.
  { unfold t, trimEnd_bytes. rewrite <- reverse_app, <- Hb. by rewrite reverse_involutive. }
  split.
  - exists a, (reverse b'). split; [by rewrite <- Hm|].
    split; [done|by apply run_of_reverse].
  - intros w Hw. split.
    + intros [k Hk].
      pose proof (drop_spaces_done white_space (length l) l white_space_nonempty
                    (le_n _)) as Hdone.
      fold (trimStart_bytes l) in Hdone. fold m in Hdone.
      apply (drop_space_None _ _ Hdone w Hw).
      exists (k ++ reverse b'). rewrite Hm, Hk. by rewrite <- app_assoc.
    + intros [k Hk].
      pose proof (drop_spaces_done (map reverse white_space) (length m) (reverse m)
                    reversed_white_space_nonempty) as Hdone.
      rewrite length_reverse in Hdone. specialize (Hdone (le_n _)).
      apply (drop_space_None _ _ Hdone (reverse w)).
      * apply list_elem_of_fmap. by exists w.
      * exists (reverse k). unfold t, trimEnd_bytes in Hk.
        apply (f_equal reverse) in Hk.
        rewrite reverse_involutive, reverse_app in Hk. exact Hk.
Qed.

Lemma bytes_trim (s : string) :
  bytes (trim s) = trimEnd_bytes (trimStart_bytes (bytes s)).
Proof. unfold trim, bytes. apply list_ascii_of_string_of_list_ascii. Qed.

(** ** The option reads *)

Lemma raw_string_cases (interaction : Interaction) (n : string) :
  (∃ v, Dig.raw_string interaction n = ret (trim v))
  ∨ (∃ err, Dig.raw_string interaction n = throw err).
Proof.
  unfold Dig.raw_string, Dig.option_value.
  destruct (data_options _) as [options|]; run; [|right; by eexists].
  destruct (js_or _ _) as [| | |v]; cbn [js_trim]; first [left; by eexists | right; by eexists].
Qed.

Lemma raw_flag_cases (interaction : Interaction) (n : string) :
  (∃ v, Dig.raw_flag interaction n = ret v ∧ (truthy v = false → v = JsBoolean false))
  ∨ (∃ err, Dig.raw_flag interaction n = throw err).
Proof.
  unfold Dig.raw_flag, Dig.option_value.
  destruct (data_options _) as [options|]; run; [|right; by eexists].
  left. eexists. split; [reflexivity|]. unfold js_or.
  destruct (truthy (Dig.find_value options n)) eqn:Hv; [congruence|done].
Qed.

(** The three ways [execute] can go: a read throws and nothing was done;
    the domain is refused; the lookup is started and scheduled. *)
Lemma execute_cases (E : Dig.Env) (interaction : Interaction)
    (response : ResponseEnvelope -> Response) :
  (∃ err, Dig.execute E interaction response = ([], Thrown err))
  ∨ (∃ vDomain rawType rawShort rawCdflag rawProvider,
       let rawDomain := trim vDomain in
       let opts :=
         Dig.make_opts (Dig.domain (Dig.validateDomain E rawDomain response))
           (Dig.select_type E rawType) rawShort rawCdflag
           (Dig.select_provider E rawProvider) in
       (truthy rawShort = false → rawShort = JsBoolean false)
       ∧ (truthy rawCdflag = false → rawCdflag = JsBoolean false)
       ∧ ((∃ refusal,
             Dig.error (Dig.validateDomain E rawDomain response) = Some refusal
             ∧ Dig.execute E interaction response =
                 ([ValidateDomain rawDomain], Normal refusal))
          ∨ (Dig.error (Dig.validateDomain E rawDomain response) = None
             ∧ Dig.execute E interaction response =
                 ([ValidateDomain rawDomain; HandleDig opts;
                   WaitUntil (DigTask interaction opts)],
                  Normal (response Dig.deferred_ack))))).
Proof.
  unfold Dig.execute.
  destruct (raw_string_cases interaction "domain") as [[vd ->]|[e ->]];
    [rewrite bind_ret|left; by eexists].
  destruct (raw_string_cases interaction "type") as [[vt ->]|[e ->]];
    [rewrite bind_ret|left; by eexists].
  destruct (raw_flag_cases interaction "short") as [[vs [-> Hs]]|[e ->]];
    [rewrite bind_ret|left; by eexists].
  destruct (raw_flag_cases interaction "cdflag") as [[vc [-> Hc]]|[e ->]];
    [rewrite bind_ret|left; by eexists].
  destruct (raw_string_cases interaction "provider") as [[vp ->]|[e ->]];
    [rewrite bind_ret|left; by eexists].
  right. exists vd, (trim vt), vs, vc, (trim vp). cbv zeta.
  split; [done|]. split; [done|].
  unfold Dig.call_validateDomain, Dig.call_handleDig. run.
  destruct (Dig.error _) as [refusal|].
  - left. by exists refusal.
  - by right.
Qed.

(** ** The task, case by case *)

Lemma digTask_cases (E : Dig.Env) (interaction : Interaction) (opts : DigOpts) :
  let waited := turns (pending_turns (Dig.handleDig E opts)) in
  let failed err := [CaptureException err; EditDeferred interaction Dig.failure_message] in
  Dig.digTask E interaction opts =
    match settled (Dig.handleDig E opts), dig_provider opts with
    | Thrown err, _ => (waited ++ failed err, Thrown err)
    | Normal _, None =>
        let err := TypeError "Cannot read properties of undefined (reading 'name')" in
        (waited ++ failed err, Thrown err)
    | Normal embeds, Some p =>
        let payload := Dig.result_message E (head embeds) (provider_name p) in
        let sent :=
          waited ++ EditDeferred interaction payload ::
            turns (pending_turns (Dig.editDeferred E interaction payload)) in
        match settled (Dig.editDeferred E interaction payload) with
        | Normal _ => (sent, Normal tt)
        | Thrown err => (sent ++ failed err, Thrown err)
        end
    end.
Proof.
  cbv zeta.
  destruct (settled (Dig.handleDig E opts)) as [embeds|err] eqn:Hdig;
    [destruct (dig_provider opts) as [p|] eqn:Hp|].
  - destruct (settled (Dig.editDeferred E interaction _)) as [[]|err] eqn:Hedit.
    + unfold Dig.digTask. rewrite digWork_cases, Hdig, Hp. cbv zeta. by rewrite Hedit.
    + apply digTask_failed. rewrite digWork_cases, Hdig, Hp. cbv zeta. by rewrite Hedit.
  - apply digTask_failed. by rewrite digWork_cases, Hdig, Hp.
  - apply digTask_failed. by rewrite digWork_cases, Hdig.
Qed.

Lemma select_type_in (E : Dig.Env) (rawType : string) :
  Dig.select_type E rawType = "A" ∨ Dig.select_type E rawType ∈ Dig.VALID_TYPES E.
Proof.
  rewrite select_type_spec. case_bool_decide; [by right|by left].
Qed.

Lemma select_type_keeps (E : Dig.Env) (t : string) :
  t ∈ Dig.VALID_TYPES E → Dig.select_type E t = t.
Proof. intros Hin. rewrite select_type_spec. by rewrite bool_decide_eq_true_2. Qed.

Lemma select_provider_in (E : Dig.Env) (rawProvider : string) (p : Provider) :
  Dig.select_provider E rawProvider = Some p → p ∈ Dig.providers E.
Proof.
  unfold Dig.select_provider.
  destruct (find _ _) as [q|] eqn:Hfind.
  - intros [= <-]. apply find_some in Hfind as [Hin _]. by apply list_elem_of_In.
  - destruct (Dig.providers E) as [|q qs]; [done|]. intros [= <-]. by left.
Qed.

Lemma select_provider_none (E : Dig.Env) (rawProvider : string) :
  Dig.select_provider E rawProvider = None → Dig.providers E = [].
Proof.
  unfold Dig.select_provider.
  destruct (find _ _) as [q|]; [done|]. by destruct (Dig.providers E).
Qed.

Lemma select_provider_named (E : Dig.Env) (p : Provider) :
  p ∈ Dig.providers E →
  ∃ q, Dig.select_provider E (provider_name p) = Some q
       ∧ provider_name q = provider_name p
       ∧ q ∈ Dig.providers E.
Proof.
  intros Hin. unfold Dig.select_provider.
  destruct (find _ _) as [q|] eqn:Hfind.
  - apply find_some in Hfind as [Hq Heq]. apply String.eqb_eq in Heq.
    exists q. by rewrite <- list_elem_of_In in Hq.
  - exfalso. apply list_elem_of_In in Hin.
    pose proof (find_none _ _ Hfind p Hin) as Hne. cbn in Hne.
    by rewrite String.eqb_refl in Hne.
Qed.

Lemma task_edits_eq (E : Dig.Env) (interaction : Interaction) (opts : DigOpts) :
  edits (trace (Dig.digTask E interaction opts)) =
    match settled (Dig.handleDig E opts), dig_provider opts with
    | Normal embeds, Some p =>
        let payload := Dig.result_message E (head embeds) (provider_name p) in
        (interaction, payload) ::
          match settled (Dig.editDeferred E interaction payload) with
          | Normal _ => []
          | Thrown _ => [(interaction, Dig.failure_message)]
          end
    | _, _ => [(interaction, Dig.failure_message)]
    end.
Proof.
  pose proof (digTask_cases E interaction opts) as Hcases. cbv zeta in Hcases.
  rewrite Hcases.
  destruct (settled (Dig.handleDig E opts)) as [embeds|err];
    [destruct (dig_provider opts) as [p|]|].
  - cbv zeta. destruct (settled (Dig.editDeferred E interaction _)) as [[]|err];
      cbn [trace fst]; rewrite ?edits_app, edits_turns; cbn; by rewrite edits_turns.
  - cbn [trace fst]. by rewrite edits_app, edits_turns.
  - cbn [trace fst]. by rewrite edits_app, edits_turns.
Qed.

(** X8. When [validateDomain] refuses the domain, [execute] returns the
    validator's own response and does nothing else: no lookup is started,
    no task is scheduled, so no edit will ever follow. *)
Theorem refused_domain_is_answered (E : Dig.Env) (interaction : Interaction)
    (response : ResponseEnvelope -> Response)
    (rawDomain rawType rawProvider : string) (rawShort rawCdflag : JsValue)
    (refusal : Response) :
  Dig.raw_string interaction "domain" = ret rawDomain →
  Dig.raw_string interaction "type" = ret rawType →
  Dig.raw_flag interaction "short" = ret rawShort →
  Dig.raw_flag interaction "cdflag" = ret rawCdflag →
  Dig.raw_string interaction "provider" = ret rawProvider →
  Dig.error (Dig.validateDomain E rawDomain response) = Some refusal →
  Dig.execute E interaction response = ([ValidateDomain rawDomain], Normal refusal)
  ∧ timeline E (Dig.execute E interaction response) = [ValidateDomain rawDomain].
Proof.
  intros Hd Ht Hs Hc Hp Hrefused.
  assert (Dig.execute E interaction response = ([ValidateDomain rawDomain], Normal refusal))
    as Hrun.
  { unfold Dig.execute.
    rewrite Hd, bind_ret, Ht, bind_ret, Hs, bind_ret, Hc, bind_ret, Hp, bind_ret.
    unfold Dig.call_validateDomain. run. by rewrite Hrefused. }
  split; [done|]. unfold timeline. by rewrite Hrun.
Qed.

Lemma refused_domain_is_answered_witness :
  ∃ refusal,
    Dig.execute Demo.digEnv
      (Demo.interaction 2 "100" "dig" ""
         (Some [ {| opt_name := "type"; opt_value := JsString "MX" |} ]))
      jsonResponse
    = ([ValidateDomain ""], Normal refusal)
    ∧ status refusal = 200%Z.
Proof.
  eexists. split.
  - apply (refused_domain_is_answered Demo.digEnv
             (Demo.interaction 2 "100" "dig" ""
                (Some [ {| opt_name := "type"; opt_value := JsString "MX" |} ]))
             jsonResponse "" "MX" "" (JsBoolean false) (JsBoolean false));
      reflexivity.
  - reflexivity.
Defined.

(** X9. Whenever [execute] throws, it throws before doing anything: the
    domain has not been validated, no lookup was started and nothing was
    handed to [wait], so the router's apology is never followed by an
    edit. (It throws when [options] is missing or a string option holds a
    truthy value that is not a string.) *)
Theorem execute_throws_before_acting (E : Dig.Env) (interaction : Interaction)
    (response : ResponseEnvelope -> Response) (err : JsError) :
  outcome (Dig.execute E interaction response) = Thrown err →
  Dig.execute E interaction response = ([], Thrown err)
  ∧ timeline E (Dig.execute E interaction response) = [].
Proof.
  intros Hthrown.
  assert (Dig.execute E interaction response = ([], Thrown err)) as Hrun.
  { destruct (execute_cases E interaction response)
      as [[e He]|(vd & rt & rs & rc & rp & _ & _ & [(r & _ & He)|[_ He]])];
      rewrite He in Hthrown |- *; cbn in Hthrown; congruence. }
  split; [done|]. unfold timeline. by rewrite Hrun.
Qed.

Lemma execute_throws_before_acting_witness :
  Dig.execute Demo.digEnv (Demo.interaction 2 "100" "dig" "" None) jsonResponse
  = ([], Thrown (TypeError "Cannot read properties of undefined (reading 'find')")).
Proof.
  apply (execute_throws_before_acting Demo.digEnv
           (Demo.interaction 2 "100" "dig" "" None) jsonResponse).
  reflexivity.
Defined.

(** X10. Whatever the interaction holds, what [execute] hands to
    [handleDig] is sanitised: exactly one record type, which is ['A'] or
    one of VALID_TYPES; a provider taken from the providers table (none
    only when the table is empty); flags that are truthy or exactly
    [false]. The task scheduled is the one for these very options and
    this interaction. *)
Theorem lookup_options_are_sanitised (E : Dig.Env) (interaction : Interaction)
    (response : ResponseEnvelope -> Response) (opts : DigOpts) :
  HandleDig opts ∈ trace (Dig.execute E interaction response) →
  (∃ type, dig_types opts = [type] ∧ (type = "A" ∨ type ∈ Dig.VALID_TYPES E))
  ∧ (∀ p, dig_provider opts = Some p → p ∈ Dig.providers E)
  ∧ (dig_provider opts = None → Dig.providers E = [])
  ∧ (truthy (short (dig_options opts)) = false → short (dig_options opts) = JsBoolean false)
  ∧ (truthy (cdflag (dig_options opts)) = false → cdflag (dig_options opts) = JsBoolean false)
  ∧ scheduled (trace (Dig.execute E interaction response)) = [DigTask interaction opts].
Proof.
  intros Hin.
  destruct (execute_cases E interaction response)
    as [[e He]|(vd & rt & rs & rc & rp & Hs & Hc & [(r & _ & He)|[_ He]])];
    rewrite He in Hin |- *; cbn [trace fst] in Hin |- *.
  - by apply elem_of_nil in Hin.
  - apply elem_of_cons in Hin as [Hin|Hin]; [done|]. by apply elem_of_nil in Hin.
  - rewrite !elem_of_cons, elem_of_nil in Hin.
    destruct Hin as [Hin|[Hin|[Hin|[]]]]; try done.
    injection Hin as ->. cbn [dig_types dig_provider dig_options short cdflag Dig.make_opts].
    split; [eexists; split; [reflexivity|apply select_type_in]|].
    split; [intros p; apply select_provider_in|].
    split; [apply select_provider_none|]. done.
Qed.

Lemma lookup_options_are_sanitised_witness :
  ∃ type, dig_types (Dig.make_opts "example.com" "A" (JsBoolean true) (JsBoolean false)
                       (Some Demo.cloudflare)) = [type]
          ∧ (type = "A" ∨ type ∈ Dig.VALID_TYPES Demo.digEnv).
Proof.
  apply (lookup_options_are_sanitised Demo.digEnv Demo.dig jsonResponse
           (Dig.make_opts "example.com" "A" (JsBoolean true) (JsBoolean false)
              (Some Demo.cloudflare))).
  apply list_elem_of_In. cbn. right. left. reflexivity.
Defined.

(** The first thing [execute] does after its reads is to validate what
    the [domain] read gave. *)
Lemma execute_validates (E : Dig.Env) (interaction : Interaction)
    (response : ResponseEnvelope -> Response) (raw : string) :
  ValidateDomain raw ∈ trace (Dig.execute E interaction response) →
  Dig.raw_string interaction "domain" = ret raw.
Proof.
  unfold Dig.execute.
  destruct (raw_string_cases interaction "domain") as [[vd Hd]|[e ->]];
    [rewrite Hd, bind_ret|cbn; by rewrite elem_of_nil].
  destruct (raw_string_cases interaction "type") as [[vt ->]|[e ->]];
    [rewrite bind_ret|cbn; by rewrite elem_of_nil].
  destruct (raw_flag_cases interaction "short") as [[vs [-> _]]|[e ->]];
    [rewrite bind_ret|cbn; by rewrite elem_of_nil].
  destruct (raw_flag_cases interaction "cdflag") as [[vc [-> _]]|[e ->]];
    [rewrite bind_ret|cbn; by rewrite elem_of_nil].
  destruct (raw_string_cases interaction "provider") as [[vp ->]|[e ->]];
    [rewrite bind_ret|cbn; by rewrite elem_of_nil].
  unfold Dig.call_validateDomain, Dig.call_handleDig. run.
  destruct (Dig.error _) as [refusal|]; run;
    rewrite !elem_of_cons, elem_of_nil; intros Hin;
    destruct Hin as [[= ->]|Hin]; try done; intuition discriminate.
Qed.

(** A read that returns gives the option's text, trimmed. *)
Lemma raw_string_text (interaction : Interaction) (options : list CommandOption)
    (n raw : string) :
  data_options (body_data interaction) = Some options →
  Dig.raw_string interaction n = ret raw →
  raw = trim (text_of (js_or (Dig.find_value options n) (JsString ""))).
Proof.
  intros Hopts. unfold Dig.raw_string, Dig.option_value. rewrite Hopts. run.
  destruct (js_or _ _) as [| | |v]; cbn [js_trim text_of]; try discriminate.
  by intros [= <-].
Qed.

(** X11. What [execute] gives to [validateDomain] is the text of the
    [domain] option ([''] when the option is missing or falsy) with a run
    of white space removed at each end and nothing else changed; no white
    space, of all that ECMAScript counts as such, is left at its start or
    at its end. *)
Theorem validated_domain_is_trimmed (E : Dig.Env) (interaction : Interaction)
    (response : ResponseEnvelope -> Response) (options : list CommandOption)
    (raw : string) :
  data_options (body_data interaction) = Some options →
  ValidateDomain raw ∈ trace (Dig.execute E interaction response) →
  (∃ a b,
     bytes (text_of (js_or (Dig.find_value options "domain") (JsString ""))) =
       a ++ bytes raw ++ b
     ∧ blank a ∧ blank b)
  ∧ (∀ w, w ∈ white_space → ¬ w `prefix_of` bytes raw ∧ ¬ w `suffix_of` bytes raw).
Proof.
  intros Hopts Hin.
  pose proof (raw_string_text interaction options "domain" raw Hopts
                (execute_validates E interaction response raw Hin)) as ->.
  rewrite bytes_trim. apply trim_bytes_spec.
Qed.

Lemma validated_domain_is_trimmed_witness :
  ∃ a b, bytes " example.com " = a ++ bytes "example.com" ++ b ∧ blank a ∧ blank b.
Proof.
  refine (proj1 (validated_domain_is_trimmed Demo.digEnv Demo.dig jsonResponse
                   Demo.dig_options "example.com" eq_refl _)).
  apply list_elem_of_In. cbn. left. reflexivity.
Defined.

(** X12. Which edits a task sends. If the lookup resolves and a provider
    is set, the result is sent first, and the failure message follows
    only if that edit rejects (two edits in all); otherwise the failure
    message alone is sent. A task never finishes without an edit. *)
Theorem task_edits (E : Dig.Env) (interaction : Interaction) (opts : DigOpts) :
  edits (trace (resume E (DigTask interaction opts))) =
    match settled (Dig.handleDig E opts), dig_provider opts with
    | Normal embeds, Some p =>
        let payload := Dig.result_message E (head embeds) (provider_name p) in
        (interaction, payload) ::
          match settled (Dig.editDeferred E interaction payload) with
          | Normal _ => []
          | Thrown _ => [(interaction, Dig.failure_message)]
          end
    | _, _ => [(interaction, Dig.failure_message)]
    end
  ∧ edits (trace (resume E (DigTask interaction opts))) ≠ [].
Proof.
  cbn [resume]. rewrite task_edits_eq. split; [done|].
  by destruct (settled (Dig.handleDig E opts)), (dig_provider opts).
Qed.

(** X13. A task reports exactly what it rejects with: nothing when it
    fulfils, and the one error it then throws to the runtime otherwise.
    It fulfils exactly when the lookup resolved, a provider was set and
    the edit of the result resolved. *)
Theorem task_reports_its_rejection (E : Dig.Env) (interaction : Interaction)
    (opts : DigOpts) :
  reports (trace (resume E (DigTask interaction opts))) =
    match outcome (resume E (DigTask interaction opts)) with
    | Normal _ => []
    | Thrown err => [err]
    end
  ∧ (outcome (resume E (DigTask interaction opts)) = Normal tt
     ↔ ∃ embeds p,
         settled (Dig.handleDig E opts) = Normal embeds
         ∧ dig_provider opts = Some p
         ∧ settled (Dig.editDeferred E interaction
                      (Dig.result_message E (head embeds) (provider_name p))) = Normal tt).
Proof.
  cbn [resume].
  pose proof (digTask_cases E interaction opts) as Hcases. cbv zeta in Hcases.
  rewrite Hcases. clear Hcases.
  destruct (settled (Dig.handleDig E opts)) as [embeds|err];
    [destruct (dig_provider opts) as [p|]|].
  - destruct (settled (Dig.editDeferred E interaction _)) as [[]|err] eqn:Hedit;
      cbn [trace outcome fst snd].
    + split.
      * rewrite reports_app, reports_turns. cbn. apply reports_turns.
      * split; [intros _; by exists embeds, p|done].
    + split.
      * rewrite !reports_app, reports_turns. cbn. by rewrite reports_turns.
      * split; [done|]. intros (embeds' & p' & [= <-] & [= <-] & Hok). congruence.
  - cbn [trace outcome fst snd]. split.
    + by rewrite reports_app, reports_turns.
    + split; [done|]. by intros (embeds' & p' & _ & Hp & _).
  - cbn [trace outcome fst snd]. split.
    + by rewrite reports_app, reports_turns.
    + split; [done|]. by intros (embeds' & p' & Hdig & _).
Qed.

(** X14. Every edit that follows an invocation of [execute] is addressed
    to the interaction [execute] was given, never to another one; there
    are at most two of them, and each comes after [execute] returned. *)
Theorem edits_stay_with_their_interaction (E : Dig.Env) (interaction : Interaction)
    (response : ResponseEnvelope -> Response) :
  (∀ target payload,
     (target, payload) ∈ edits (timeline E (Dig.execute E interaction response)) →
     target = interaction)
  ∧ length (edits (timeline E (Dig.execute E interaction response))) ≤ 2
  ∧ edits (trace (Dig.execute E interaction response)) = [].
Proof.
  assert (edits (timeline E (Dig.execute E interaction response)) = []
          ∨ ∃ opts, edits (timeline E (Dig.execute E interaction response)) =
                      edits (trace (Dig.digTask E interaction opts))) as Hedits.
  { unfold timeline.
    destruct (execute_cases E interaction response)
      as [[e He]|(vd & rt & rs & rc & rp & _ & _ & [(r & _ & He)|[_ He]])];
      rewrite He; [by left|by left|].
    right. eexists. cbn [trace fst].
    match goal with |- context [scheduled ?l] =>
      change (scheduled l) with [DigTask interaction
        (Dig.make_opts (Dig.domain (Dig.validateDomain E (trim vd) response))
           (Dig.select_type E rt) rs rc (Dig.select_provider E rp))]
    end.
    cbn [map concat resume]. rewrite app_nil_r, edits_app. reflexivity. }
  assert (edits (trace (Dig.execute E interaction response)) = []) as Hsync.
  { destruct (execute_cases E interaction response)
      as [[e He]|(vd & rt & rs & rc & rp & _ & _ & [(r & _ & He)|[_ He]])];
      by rewrite He. }
  split; [|split; [|done]].
  - intros target payload Hin. destruct Hedits as [Hnone|[opts Hsome]].
    + rewrite Hnone in Hin. by apply elem_of_nil in Hin.
    + rewrite Hsome, task_edits_eq in Hin. cbv zeta in Hin.
      destruct (settled (Dig.handleDig E opts)), (dig_provider opts);
        try destruct (settled (Dig.editDeferred E interaction _));
        rewrite ?elem_of_cons, elem_of_nil in Hin;
        intuition congruence.
  - destruct Hedits as [->|[opts ->]]; [cbn; lia|].
    rewrite task_edits_eq. cbv zeta.
    destruct (settled (Dig.handleDig E opts)), (dig_provider opts);
      try destruct (settled (Dig.editDeferred E interaction _)); cbn; lia.
Qed.


Lemma raw_string_of_string (interaction : Interaction) (options : list CommandOption)
    (n v : string) :
  data_options (body_data interaction) = Some options →
  Dig.find_value options n = JsString v →
  Dig.raw_string interaction n = ret (trim v).
Proof.
  intros Hopts Hv. unfold Dig.raw_string, Dig.option_value. rewrite Hopts. run.
  rewrite Hv. unfold js_or. cbn [truthy].
  destruct (String.eqb_spec v "") as [->|Hne]; reflexivity.
Qed.

Lemma type_choice_valid (E : Dig.Env) (c : Dig.Choice) :
  c ∈ Dig.type_choices E → Dig.choice_value c ∈ Dig.VALID_TYPES E.
Proof.
  unfold Dig.type_choices, Dig.optionTypes. intros Hc.
  apply list_elem_of_fmap in Hc as (t & -> & Ht). cbn [Dig.choice_value].
  apply list_elem_of_lookup in Ht as [k Hk].
  apply lookup_take_Some in Hk as [Hk _]. by eapply list_elem_of_lookup_2.
Qed.

(** X16. Choosing what the command offers is honoured. When the [type]
    and [provider] options hold the values of offered choices (values that
    trimming leaves alone) and the domain is accepted, the lookup is
    started for exactly that type and for a provider of the table bearing
    exactly that name. *)
Theorem offered_choices_are_honoured (E : Dig.Env) (interaction : Interaction)
    (response : ResponseEnvelope -> Response) (options : list CommandOption)
    (chosenType chosenProvider : Dig.Choice) (rawDomain : string) :
  data_options (body_data interaction) = Some options →
  chosenType ∈ Dig.type_choices E →
  chosenProvider ∈ Dig.provider_choices E →
  Dig.find_value options "type" = JsString (Dig.choice_value chosenType) →
  Dig.find_value options "provider" = JsString (Dig.choice_value chosenProvider) →
  trim (Dig.choice_value chosenType) = Dig.choice_value chosenType →
  trim (Dig.choice_value chosenProvider) = Dig.choice_value chosenProvider →
  Dig.raw_string interaction "domain" = ret rawDomain →
  Dig.error (Dig.validateDomain E rawDomain response) = None →
  ∃ opts p,
    Dig.execute E interaction response =
      ([ValidateDomain rawDomain; HandleDig opts; WaitUntil (DigTask interaction opts)],
       Normal (response Dig.deferred_ack))
    ∧ dig_types opts = [Dig.choice_value chosenType]
    ∧ dig_provider opts = Some p
    ∧ provider_name p = Dig.choice_value chosenProvider
    ∧ p ∈ Dig.providers E.
Proof.
  intros Hopts Hct Hcp Hvt Hvp Htt Htp Hd Hvalid.
  pose proof (raw_string_of_string interaction options "type" _ Hopts Hvt) as Hrt.
  pose proof (raw_string_of_string interaction options "provider" _ Hopts Hvp) as Hrp.
  rewrite Htt in Hrt. rewrite Htp in Hrp.
  pose proof (execute_accepted E interaction response _ _ _ _ _ Hd Hrt
                (raw_flag_reads interaction options "short" Hopts)
                (raw_flag_reads interaction options "cdflag" Hopts) Hrp Hvalid) as Hrun.
  cbv zeta in Hrun.
  unfold Dig.provider_choices in Hcp.
  apply list_elem_of_fmap in Hcp as (q & Hq & Hin).
  destruct (select_provider_named E q Hin) as (p & Hsel & Hname & Hp).
  assert (Dig.choice_value chosenProvider = provider_name q) as Hcv by (by rewrite Hq).
  eexists _, p. split; [exact Hrun|].
  cbn [dig_types dig_provider Dig.make_opts].
  rewrite (select_type_keeps E _ (type_choice_valid E _ Hct)).
  rewrite Hcv, Hsel. by repeat split.
Qed.

Lemma offered_choices_are_honoured_witness :
  ∃ opts p,
    Dig.execute Demo.digEnv
      (Demo.interaction 2 "100" "dig" ""
         (Some [ {| opt_name := "domain"; opt_value := JsString "example.com" |};
                 {| opt_name := "type"; opt_value := JsString "MX" |};
                 {| opt_name := "provider"; opt_value := JsString "8.8.8.8 (Google)" |} ]))
      jsonResponse
    = ([ValidateDomain "example.com"; HandleDig opts;
        WaitUntil (DigTask
          (Demo.interaction 2 "100" "dig" ""
             (Some [ {| opt_name := "domain"; opt_value := JsString "example.com" |};
                     {| opt_name := "type"; opt_value := JsString "MX" |};
                     {| opt_name := "provider";
                        opt_value := JsString "8.8.8.8 (Google)" |} ])) opts)],
       Normal (jsonResponse Dig.deferred_ack))
    ∧ dig_types opts = ["MX"]
    ∧ dig_provider opts = Some p
    ∧ provider_name p = "8.8.8.8 (Google)"
    ∧ p ∈ Dig.providers Demo.digEnv.
Proof.
  apply (offered_choices_are_honoured Demo.digEnv
           (Demo.interaction 2 "100" "dig" ""
              (Some [ {| opt_name := "domain"; opt_value := JsString "example.com" |};
                      {| opt_name := "type"; opt_value := JsString "MX" |};
                      {| opt_name := "provider";
                         opt_value := JsString "8.8.8.8 (Google)" |} ]))
           jsonResponse
           [ {| opt_name := "domain"; opt_value := JsString "example.com" |};
             {| opt_name := "type"; opt_value := JsString "MX" |};
             {| opt_name := "provider"; opt_value := JsString "8.8.8.8 (Google)" |} ]
           {| Dig.choice_name := "MX records"; Dig.choice_value := "MX" |}
           {| Dig.choice_name := "8.8.8.8 (Google)";
              Dig.choice_value := "8.8.8.8 (Google)" |}
           "example.com");
    try reflexivity; apply list_elem_of_In; cbn; tauto.
Defined.

(** X17. The dig command behind the router. For a verified command
    interaction whose table entry loads the dig module and whose domain
    is accepted, the listener answers 200 with the JSON of the deferred
    acknowledgement, reports nothing, and has handed to [wait] exactly
    one task, the one for this interaction and for the options read from
    it. *)
Theorem dig_behind_the_router (P : Platform) (E : Dig.Env) (request : Request)
    (cmd : Interaction) (commandData : CommandData)
    (rawDomain rawType rawProvider : string) (rawShort rawCdflag : JsValue) :
  req_method request = "POST" →
  req_pathname request = "/interactions" →
  verify P request (req_text request) = true →
  JSON_parse P (req_text request) = Normal cmd →
  body_type cmd = InteractionType.ApplicationCommand →
  commands P !! data_id (body_data cmd) = Some commandData →
  import_module P (command_path commandData) = Normal (Dig.command E) →
  Dig.raw_string cmd "domain" = ret rawDomain →
  Dig.raw_string cmd "type" = ret rawType →
  Dig.raw_flag cmd "short" = ret rawShort →
  Dig.raw_flag cmd "cdflag" = ret rawCdflag →
  Dig.raw_string cmd "provider" = ret rawProvider →
  Dig.error (Dig.validateDomain E rawDomain jsonResponse) = None →
  let opts :=
    Dig.make_opts (Dig.domain (Dig.validateDomain E rawDomain jsonResponse))
      (Dig.select_type E rawType) rawShort rawCdflag (Dig.select_provider E rawProvider) in
  fetchListener P request =
    (admitted_body request cmd ++ command_scope cmd ++
       [ImportModule (command_path commandData);
        ExecuteHandler (command_path commandData) cmd;
        ValidateDomain rawDomain; HandleDig opts; WaitUntil (DigTask cmd opts)],
     Normal {| status := 200;
               headers := [("Content-Type", "application/json")];
               body := JsonBody {| env_type := 5; env_data := None |} |})
  ∧ reports (trace (fetchListener P request)) = []
  ∧ scheduled (trace (fetchListener P request)) = [DigTask cmd opts]
  ∧ dig_types opts = [Dig.select_type E rawType]
  ∧ dig_provider opts = Dig.select_provider E rawProvider.
Proof.
  intros Hpost Hpath Hv Hparse Htype Hsome Himport Hd Ht Hs Hc Hp Hvalid opts.
  pose proof (execute_accepted E cmd jsonResponse _ _ _ _ _ Hd Ht Hs Hc Hp Hvalid) as Hexec.
  cbv zeta in Hexec. fold opts in Hexec.
  pose proof (listener_command_answered P request cmd commandData
                (Dig.command E) _ _ Hpost Hpath Hv Hparse Htype Hsome Himport Hexec)
    as Hrun.
  rewrite Hrun. cbn [trace fst].
  split; [reflexivity|]. split; [reflexivity|]. split; [reflexivity|].
  split; reflexivity.
Qed.

Lemma dig_behind_the_router_witness :
  outcome (fetchListener Demo.platform (Demo.post "good" "dig")) =
    Normal {| status := 200;
              headers := [("Content-Type", "application/json")];
              body := JsonBody {| env_type := 5; env_data := None |} |}.
Proof.
  pose proof (dig_behind_the_router Demo.platform Demo.digEnv (Demo.post "good" "dig")
                Demo.dig {| cmd_name := "dig"; cmd_file := "dig.js" |}
                "example.com" "BOGUS" "nobody" (JsBoolean true) (JsBoolean false)
                eq_refl eq_refl eq_refl eq_refl eq_refl eq_refl eq_refl
                eq_refl eq_refl eq_refl eq_refl eq_refl eq_refl) as H.
  cbv zeta in H. destruct H as [-> _]. reflexivity.
Defined.

(** X18. On the component path a module that fails to load for any reason
    other than MODULE_NOT_FOUND (no code at all, or another code) is a
    server error: the response is 500 with no body, the loader's error is
    reported once, and no [execute] is called. *)
Theorem component_load_failure (P : Platform) (request : Request) (click : Interaction)
    (err : JsError) :
  req_method request = "POST" →
  req_pathname request = "/interactions" →
  verify P request (req_text request) = true →
  JSON_parse P (req_text request) = Normal click →
  body_type click = InteractionType.MessageComponent →
  import_module P (component_path click) = Thrown err →
  err_code err ≠ Some "MODULE_NOT_FOUND" →
  fetchListener P request =
    (admitted_body request click ++ component_scope click ++
       [ConsoleLog click; CaptureException err],
     Normal {| status := 500; headers := []; body := NoBody |})
  ∧ reports (trace (fetchListener P request)) = [err].
Proof.
  intros Hpost Hpath Hv Hparse Htype Himport Hcode.
  pose proof (component_missing P click err Himport) as Hc.
  rewrite (other_code_is_not err Hcode) in Hc.
  rewrite (listener_routed P request Hpost Hpath click _ _ _
             (routed_component P request click Hv Hparse Htype) Hc).
  done.
Qed.

Lemma component_load_failure_witness :
  reports (trace (fetchListener
                    {| verify := Demo.signed; JSON_parse := Demo.parse; commands := ∅;
                       import_module := fun _ =>
                         Thrown {| err_name := "Error";
                                   err_message := "Cannot find module";
                                   err_code := Some "ERR_MODULE_NOT_FOUND" |};
                       Privacy := ""; Terms := ""; CLIENT_ID := "" |}
                    (Demo.post "good" "stale click")))
  = [ {| err_name := "Error"; err_message := "Cannot find module";
         err_code := Some "ERR_MODULE_NOT_FOUND" |} ].
Proof.
  apply (component_load_failure
           {| verify := Demo.signed; JSON_parse := Demo.parse; commands := ∅;
              import_module := fun _ =>
                Thrown {| err_name := "Error";
                          err_message := "Cannot find module";
                          err_code := Some "ERR_MODULE_NOT_FOUND" |};
              Privacy := ""; Terms := ""; CLIENT_ID := "" |}
           (Demo.post "good" "stale click") Demo.stale_click
           {| err_name := "Error"; err_message := "Cannot find module";
              err_code := Some "ERR_MODULE_NOT_FOUND" |});
    [reflexivity|reflexivity|reflexivity|reflexivity|reflexivity|reflexivity|discriminate].
Defined.
